(** * Subscription reconciliation of the journaling application

    A shallow embedding of the four Supabase edge functions that keep a
    user's subscription state in step with the billing providers:

      - [supabase/functions/revenuecat-webhook/index.ts]
      - [supabase/functions/verify-subscription/index.ts]
      - [supabase/functions/create-checkout-session/index.ts]
      - [supabase/functions/create-stripe-customer/index.ts]

    The handlers are request/response functions over two stores that live
    outside the process: the [profiles] table and the billing provider's
    customer, session and subscription objects.  They are modelled as
    computations in a state-and-exception monad over those stores.  What
    the runtime supplies (Web Crypto, [JSON.parse], [Date]) is an
    interface, [Platform]; what the collaborators decide on each call
    (a failed write, an unreachable provider, the id of a new object, the
    clock) is an [Oracle] handed to every invocation. *)

From Stdlib Require Import ZArith NArith String Ascii List Bool Lia.
From Stdlib.Strings Require Import Byte.
From stdpp Require Import base option gmap strings list fin_maps.

Local Open Scope string_scope.

(** ** JavaScript values and helpers *)

Module JS.

(** The outcome of evaluating an expression: a value, or a thrown
    [Error] carrying its message. *)
Inductive completion (A : Type) : Type :=
| Normal (a : A)
| Throw (message : string).
Arguments Normal {A} a.
Arguments Throw {A} message.

(** [!!s] for a value that is a string, [null] or [undefined]:
    only a non-empty string is truthy. *)
Definition truthy (v : option string) : bool :=
  match v with
  | Some s => negb (String.eqb s "")
  | None => false
  end.

(** [a || b] on a string-or-null: the first operand when truthy. *)
Definition or_else (a : option string) (b : option string) : option string :=
  if truthy a then a else b.

(** [a === b] where [a] is a string and [b] a string or [undefined]. *)
Definition strict_eq (a : string) (b : option string) : bool :=
  match b with
  | Some s => String.eqb a s
  | None => false
  end.

(** [s.includes(needle)]. *)
Fixpoint includes (s needle : string) : bool :=
  String.prefix needle s ||
  match s with
  | EmptyString => false
  | String _ rest => includes rest needle
  end.

(** [s.split(sep)[0]] for a one-character separator: the text before
    its first occurrence, the whole string when there is none. *)
Fixpoint split_head (sep : ascii) (s : string) : string :=
  match s with
  | EmptyString => EmptyString
  | String c rest =>
      if Ascii.eqb c sep then EmptyString else String c (split_head sep rest)
  end.

(** [s.padStart(n, pad)] for a one-character [pad]. *)
Definition padStart (n : nat) (pad : ascii) (s : string) : string :=
  string_of_list_ascii (repeat pad (n - String.length s)) ++ s.

(** The digits of [Number.prototype.toString(16)], by value. *)
Definition hex_digits : string := "0123456789abcdef".

Definition hex_digit (d : N) : ascii :=
  match String.get (N.to_nat d) hex_digits with
  | Some c => c
  | None => "f"%char
  end.

(** [b.toString(16)] for an element [b] of a [Uint8Array]: no leading
    zero, so one digit below sixteen and two from there on. *)
Definition toString16 (b : byte) : string :=
  let n := Byte.to_N b in
  if (n <? 16)%N then String (hex_digit n) EmptyString
  else String (hex_digit (n / 16)) (String (hex_digit (n mod 16)) EmptyString).

(** [parts.join('')]. *)
Definition join (parts : list string) : string :=
  fold_right String.append EmptyString parts.

(** [new TextEncoder().encode(s)].  A JavaScript string that reaches the
    handlers is well-formed text (an environment variable, a header, the
    decoded request body); it is represented by its UTF-8 bytes, which
    is what the encoder returns. *)
Definition TextEncoder_encode (s : string) : list byte := list_byte_of_string s.

End JS.
Export JS.

(** ** Payloads *)

(** [interface RevenueCatEvent], the members of [event.event] the handler
    reads. *)
Record RevenueCatEvent : Type := {
  ev_type : string;
  app_user_id : string;
  product_id : string;
  expires_date : option string;
}.

(** [interface VerifyRequest] and [interface CheckoutRequest]: a member
    the body does not carry is [undefined]. *)
Record VerifyRequest : Type := {
  vr_sessionId : option string;
  vr_userId : option string;
}.

Record CheckoutRequest : Type := {
  cr_priceId : option string;
  cr_userId : option string;
  cr_email : option string;
  cr_name : option string;
}.

(** The [record] of the signup trigger's payload: a row of [auth.users]. *)
Record UserRecord : Type := {
  rec_id : option string;
  rec_email : option string;
  rec_metadata_name : option string;
}.

(** ** What the platform supplies *)

(** The Deno runtime pieces the handlers call.  The hash itself, the JSON
    grammar and the calendar are not this repository's code; the handlers
    are verified for every implementation of this interface. *)
Class Platform : Type := {
  CryptoKey : Type;
  (** Web Crypto as the runtime has it, on its global object:
      [importKey("raw", key, {name: "HMAC", hash: "SHA-256"}, ...)] *)
  importKey : list byte → completion CryptoKey;
  (** and [sign("HMAC", hmacKey, data)], the HMAC-SHA256 of [data] *)
  sign : CryptoKey → list byte → completion (list byte);
  (** [JSON.parse(body)] read at the handler's payload type *)
  JSON_parse_event : string → completion RevenueCatEvent;
  json_verify : string → completion VerifyRequest;
  json_checkout : string → completion CheckoutRequest;
  json_signup : string → completion (option UserRecord);
  (** the time value of [new Date(text)], [None] for an Invalid Date *)
  Date_parse : string → option Z;
  (** [toISOString] of a valid time value (milliseconds since the epoch) *)
  iso_string : Z → string;
}.

(** ** 4.1 Signature verifier *)

Section Signature.
Context `{Platform}.

(** [signatureArray.map(b => b.toString(16).padStart(2, '0')).join('')] *)
Definition hex (signatureArray : list byte) : string :=
  join (map (fun b => padStart 2 "0" (toString16 b)) signatureArray).

(** An object with the two methods of [SubtleCrypto] that the verifier
    calls. *)
Record SubtleCrypto : Type := {
  subtle_importKey : list byte → completion CryptoKey;
  subtle_sign : CryptoKey → list byte → completion (list byte);
}.

(** [globalThis.crypto.subtle]: Web Crypto on the runtime's global
    object. *)
Definition globalThis_crypto_subtle : SubtleCrypto :=
  {| subtle_importKey := importKey; subtle_sign := sign |}.

(** [crypto.subtle] as [verifySignature] reads it.  Line 3 of the file,
    [import * as crypto from '.../std@0.177.0/crypto/mod.ts'], binds the
    name [crypto] in the whole module to the namespace object of that
    library module, in place of the runtime's global of the same name.
    The library module exports its Web Crypto object under the name
    [crypto] (so that object is [crypto.crypto] here); it has no export
    named [subtle], and reading a member a namespace does not have
    gives [undefined]. *)
Definition crypto_subtle : option SubtleCrypto := None.

(** The body of the [try] block of [verifySignature].  Calling a method
    of [undefined] throws a [TypeError] before any argument is used. *)
Definition verifySignature_try (payload signature secretKey : string)
  : completion bool :=
  let key := TextEncoder_encode secretKey in
  match crypto_subtle with
  | None => Throw "Cannot read properties of undefined (reading 'importKey')"
  | Some subtle =>
      match subtle_importKey subtle key with
      | Throw e => Throw e
      | Normal hmacKey =>
          let payloadBytes := TextEncoder_encode payload in
          match subtle_sign subtle hmacKey payloadBytes with
          | Throw e => Throw e
          | Normal signatureBytes =>
              let calculatedSignature := hex signatureBytes in
              Normal (String.eqb calculatedSignature signature)
          end
      end
  end.

(** [verifySignature]: the [catch] turns every exception into [false]. *)
Definition verifySignature (payload signature secretKey : string) : bool :=
  match verifySignature_try payload signature secretKey with
  | Normal b => b
  | Throw _ => false
  end.

(** *** The signature the sender computes

    The three definitions below follow the words of the specification
    (4.1), not the code: [HMAC-SHA256(secret, rawBody)], its hex
    encoding, and the two combined. *)

(** The HMAC-SHA256 of a body under a secret, as Web Crypto computes it;
    a [Throw] when the key is refused or signing fails. *)
Definition HMAC_SHA256 (secret rawBody : string) : completion (list byte) :=
  match subtle_importKey globalThis_crypto_subtle (TextEncoder_encode secret) with
  | Throw e => Throw e
  | Normal k => subtle_sign globalThis_crypto_subtle k (TextEncoder_encode rawBody)
  end.

(** One hexadecimal digit, by its character code. *)
Definition hex_char (d : N) : ascii :=
  ascii_of_N (if (d <? 10)%N then 48 + d else 87 + d).

(** Lowercase hexadecimal, two digits a byte, the high half first. *)
Definition hexEncode (bytes : list byte) : string :=
  string_of_list_ascii
    (flat_map (fun b => [hex_char (N.shiftr (Byte.to_N b) 4);
                         hex_char (N.land (Byte.to_N b) 15)]) bytes).

Definition hmac_sha256_hex (secretKey payload : string) : completion string :=
  match HMAC_SHA256 secretKey payload with
  | Throw e => Throw e
  | Normal mac => Normal (hexEncode mac)
  end.

End Signature.

(** ** Data model *)

(** [profiles.subscription_status] and [profiles.subscription_tier]: the
    values the handlers and the signup trigger write. *)
Inductive SubscriptionStatus : Type :=
| status_free | status_premium | status_cancelled | status_expired.

Inductive SubscriptionTier : Type :=
| tier_free | tier_premium | tier_premium_plus.

(** A row of [public.profiles], keyed by [user_id] in the table below.
    [revenuecat_user_id] is the column that holds the billing customer
    id. *)
Record Profile : Type := {
  name : string;
  subscription_status : SubscriptionStatus;
  subscription_tier : SubscriptionTier;
  subscription_expires_at : option string;
  revenuecat_user_id : option string;
  updated_at : string;
}.

(** The row [handle_new_user] inserts at signup. *)
Definition new_profile (display_name created : string) : Profile :=
  {| name := display_name;
     subscription_status := status_free;
     subscription_tier := tier_free;
     subscription_expires_at := None;
     revenuecat_user_id := None;
     updated_at := created |}.

(** The provider's objects, with the fields the handlers read or send. *)
Record Customer : Type := {
  customer_id : string;
  customer_email : string;
  customer_name : string;
  customer_metadata : list (string * string);
}.

Record Session : Type := {
  session_id : string;
  session_url : option string;
  (** ['open'], ['complete'], ['expired'] or [null] *)
  session_status : option string;
  (** ['paid'], ['unpaid'] or ['no_payment_required'] *)
  payment_status : string;
  session_subscription : option string;
  session_customer : option string;
  session_price : string;
  trial_period_days : nat;
  session_metadata : list (string * string);
  success_url : string;
  cancel_url : string;
}.

Record Subscription : Type := {
  (** [items.data[i].price.id], in order *)
  item_price_ids : list string;
  (** seconds since the epoch *)
  current_period_end : Z;
}.

Record Stripe : Type := {
  customers : list Customer;
  sessions : list Session;
  subscriptions : gmap string Subscription;
}.

(** Everything the handlers can read or change. *)
Record World : Type := {
  profiles : gmap string Profile;
  stripe : Stripe;
}.

Definition with_profiles (t : gmap string Profile) (w : World) : World :=
  {| profiles := t; stripe := stripe w |}.

Definition with_stripe (s : Stripe) (w : World) : World :=
  {| profiles := profiles w; stripe := s |}.

(** What the outside decides during one invocation. *)
Record Oracle : Type := {
  (** [new Date().toISOString()] and [Date.now()] as text *)
  now : string;
  now_ms : string;
  (** the [profiles] query fails for a reason other than "no row" *)
  select_fails : bool;
  (** the [profiles] update is refused *)
  update_fails : bool;
  (** the provider call throws whatever the provider holds *)
  customers_retrieve_fails : bool;
  customers_create_fails : bool;
  sessions_create_fails : bool;
  sessions_retrieve_fails : bool;
  subscriptions_retrieve_fails : bool;
  (** the ids and URL the provider gives to what it creates *)
  new_customer_id : string;
  new_session_id : string;
  new_session_url : option string;
}.

(** [Deno.env]. *)
Definition Deno_env_get (env : gmap string string) (key : string) : option string :=
  env !! key.

(** ** Requests and responses *)

Record Request : Type := {
  method : string;
  (** [req.headers.get('X-Signature')] *)
  x_signature : option string;
  (** [await req.text()] *)
  text : string;
}.

(** The JSON bodies the handlers send. *)
Inductive Body : Type :=
| NoBody
| Failure (error : string)
| PaymentNotCompleted (session_status : option string) (payment_status : string)
| Received
| Verified (tier : SubscriptionTier) (expires_at : string)
| CheckoutCreated (url : option string) (session : string)
| CustomerLinked (message customerId : string).

Record Response : Type := {
  status : nat;
  body : Body;
}.

(** The [success] member of a response body, when it has one. *)
Definition success (r : Response) : option bool :=
  match body r with
  | NoBody => None
  | Failure _ | PaymentNotCompleted _ _ => Some false
  | Received | Verified _ _ | CheckoutCreated _ _ | CustomerLinked _ _ => Some true
  end.

Definition json (code : nat) (b : Body) : Response :=
  {| status := code; body := b |}.

(** ** Handlers as computations over the world *)

Definition Eff (A : Type) : Type := World → completion A * World.

Definition ret {A} (a : A) : Eff A := fun w => (Normal a, w).

Definition throw {A} (message : string) : Eff A := fun w => (Throw message, w).

Definition lift {A} (c : completion A) : Eff A := fun w => (c, w).

Definition bind {A B} (m : Eff A) (k : A → Eff B) : Eff B :=
  fun w =>
    match m w with
    | (Normal a, w') => k a w'
    | (Throw e, w') => (Throw e, w')
    end.

(** [try { m } catch (error) { h(error.message) }]: what [m] changed before
    it threw stays changed. *)
Definition try_catch {A} (m : Eff A) (h : string → Eff A) : Eff A :=
  fun w =>
    match m w with
    | (Normal a, w') => (Normal a, w')
    | (Throw e, w') => h e w'
    end.

Notation "x <~ m ;; k" := (bind m (fun x => k))
  (at level 100, m at next level, right associativity).

(** [Deno.serve]: an exception that escapes the handler is answered 500. *)
Definition serve (handler : Eff Response) (w : World) : Response * World :=
  match handler w with
  | (Normal r, w') => (r, w')
  | (Throw _, w') => (json 500 NoBody, w')
  end.

(** ** The [profiles] table through the Supabase client *)

Inductive PostgrestError : Type :=
| PGRST116          (* the query of [.single()] returned no row *)
| OtherError (message : string).

Definition is_PGRST116 (e : PostgrestError) : bool :=
  match e with PGRST116 => true | OtherError _ => false end.

(** [.from('profiles').select('revenuecat_user_id').eq('user_id', id).single()]:
    the pair [{ data, error }]. *)
Definition select_revenuecat_user_id (o : Oracle) (user_id : string)
  : Eff (option (option string) * option PostgrestError) :=
  fun w =>
    if select_fails o then (Normal (None, Some (OtherError "select failed")), w)
    else match profiles w !! user_id with
         | Some row => (Normal (Some (revenuecat_user_id row), None), w)
         | None => (Normal (None, Some PGRST116), w)
         end.

(** [.from('profiles').update(patch).eq('user_id', id)]: the [error] of the
    result.  The patch rewrites the matching row, if there is one. *)
Definition update_profile (o : Oracle) (patch : Profile → Profile) (user_id : string)
  : Eff (option PostgrestError) :=
  fun w =>
    if update_fails o then (Normal (Some (OtherError "update failed")), w)
    else (Normal None, with_profiles (alter patch user_id (profiles w)) w).

(** ** [Date] *)

(** [new Date(ms)]: the time value, [None] (Invalid Date) out of range. *)
Definition Date_of_ms (ms : Z) : option Z :=
  if (Z.abs ms <=? 8640000000000000)%Z then Some ms else None.

Section Dates.
Context `{Platform}.

(** [date.toISOString()], a [RangeError] on an Invalid Date. *)
Definition toISOString (date : option Z) : completion string :=
  match date with
  | Some t => Normal (iso_string t)
  | None => Throw "Invalid time value"
  end.

End Dates.

(** ** The billing provider through the Stripe SDK *)

Definition with_customers (cs : list Customer) (s : Stripe) : Stripe :=
  {| customers := cs; sessions := sessions s; subscriptions := subscriptions s |}.

Definition with_sessions (ss : list Session) (s : Stripe) : Stripe :=
  {| customers := customers s; sessions := ss; subscriptions := subscriptions s |}.

Definition has_customer_id (id : string) (c : Customer) : bool :=
  String.eqb (customer_id c) id.

(** [stripe.customers.retrieve(id)]: throws when the provider has no such
    customer, or cannot be reached. *)
Definition customers_retrieve (o : Oracle) (id : string) : Eff Customer :=
  fun w =>
    if customers_retrieve_fails o then (Throw "An error occurred with our connection to Stripe.", w)
    else match List.find (has_customer_id id) (customers (stripe w)) with
         | Some c => (Normal c, w)
         | None => (Throw ("No such customer: " ++ id), w)
         end.

(** [stripe.customers.create({ email, name, metadata })]. *)
Definition customers_create (o : Oracle) (email name : string)
    (metadata : list (string * string)) : Eff Customer :=
  fun w =>
    if customers_create_fails o then (Throw "An error occurred with our connection to Stripe.", w)
    else
      let customer :=
        {| customer_id := new_customer_id o; customer_email := email;
           customer_name := name; customer_metadata := metadata |} in
      (Normal customer,
       with_stripe (with_customers (customers (stripe w) ++ [customer]) (stripe w)) w).

(** [stripe.checkout.sessions.retrieve(id)]. *)
Definition sessions_retrieve (o : Oracle) (id : string) : Eff (option Session) :=
  fun w =>
    if sessions_retrieve_fails o then (Throw "An error occurred with our connection to Stripe.", w)
    else match List.find (fun s => String.eqb (session_id s) id) (sessions (stripe w)) with
         | Some s => (Normal (Some s), w)
         | None => (Throw ("No such checkout.session: " ++ id), w)
         end.

(** [stripe.subscriptions.retrieve(id)]. *)
Definition subscriptions_retrieve (o : Oracle) (id : string) : Eff Subscription :=
  fun w =>
    if subscriptions_retrieve_fails o then (Throw "An error occurred with our connection to Stripe.", w)
    else match subscriptions (stripe w) !! id with
         | Some s => (Normal s, w)
         | None => (Throw ("No such subscription: " ++ id), w)
         end.

(** [stripe.checkout.sessions.create({...})] in subscription mode with a
    trial: the new session is open and unpaid. *)
Definition sessions_create (o : Oracle) (customer price : string) (trial : nat)
    (metadata : list (string * string)) (on_success on_cancel : string) : Eff Session :=
  fun w =>
    if sessions_create_fails o then (Throw "An error occurred with our connection to Stripe.", w)
    else
      let session :=
        {| session_id := new_session_id o; session_url := new_session_url o;
           session_status := Some "open"; payment_status := "unpaid";
           session_subscription := None; session_customer := Some customer;
           session_price := price; trial_period_days := trial;
           session_metadata := metadata;
           success_url := on_success; cancel_url := on_cancel |} in
      (Normal session,
       with_stripe (with_sessions (sessions (stripe w) ++ [session]) (stripe w)) w).

(** The string a truthy value is. *)
Definition the_string (v : option string) : string := default "" v.

(** ** 4.5 Webhook event processor: [revenuecat-webhook] *)

(** The two groups of [case] labels of the [switch]. *)
Definition is_purchase_type (type : string) : bool :=
  String.eqb type "INITIAL_PURCHASE" || String.eqb type "RENEWAL" ||
  String.eqb type "RESTORE" || String.eqb type "NON_RENEWING_PURCHASE".

Definition is_lapse_type (type : string) : bool :=
  String.eqb type "CANCELLATION" || String.eqb type "EXPIRATION" ||
  String.eqb type "BILLING_ISSUE".

(** [const isYearly = ...; const tier = isYearly ? 'premium_plus' : 'premium'] *)
Definition tier_of_product (productId : string) : SubscriptionTier :=
  let isYearly := includes productId "yearly" || includes productId "annual" in
  if isYearly then tier_premium_plus else tier_premium.

(** [event.event.type === 'CANCELLATION' ? 'cancelled' : 'expired'] *)
Definition lapse_status (type : string) : SubscriptionStatus :=
  if String.eqb type "CANCELLATION" then status_cancelled else status_expired.

(** The object given to [.update] for a purchase event. *)
Definition purchase_patch (tier : SubscriptionTier) (expires : option string)
    (userId updated : string) (row : Profile) : Profile :=
  {| name := name row;
     subscription_status := status_premium;
     subscription_tier := tier;
     subscription_expires_at := expires;
     revenuecat_user_id := Some userId;
     updated_at := updated |}.

(** The object given to [.update] for a cancellation, expiration or
    billing issue: three columns, the others keep their value. *)
Definition lapse_patch (st : SubscriptionStatus) (expires : option string)
    (updated : string) (row : Profile) : Profile :=
  {| name := name row;
     subscription_status := st;
     subscription_tier := subscription_tier row;
     subscription_expires_at := expires;
     revenuecat_user_id := revenuecat_user_id row;
     updated_at := updated |}.

Section Webhook.
Context `{Platform}.

(** [const expiresDate = event.event.expires_date ? new Date(...) : null]
    and then [expiresDate?.toISOString() || null]. *)
Definition expires_at_of_event (expires_date : option string)
  : completion (option string) :=
  if truthy expires_date then
    match toISOString (Date_parse (the_string expires_date)) with
    | Normal text => Normal (or_else (Some text) None)
    | Throw e => Throw e
    end
  else Normal None.

(** The [switch (event.event.type)]. *)
Definition handle_event (o : Oracle) (event : RevenueCatEvent) : Eff unit :=
  let type := ev_type event in
  if is_purchase_type type then
    let userId := app_user_id event in
    let productId := product_id event in
    let tier := tier_of_product productId in
    expires <~ lift (expires_at_of_event (expires_date event)) ;;
    updateError <~ update_profile o (purchase_patch tier expires userId (now o)) userId ;;
    match updateError with
    | Some _ => throw "Failed to update user profile"
    | None => ret tt
    end
  else if is_lapse_type type then
    let userId := app_user_id event in
    expires <~ lift (expires_at_of_event (expires_date event)) ;;
    updateError <~ update_profile o (lapse_patch (lapse_status type) expires (now o)) userId ;;
    match updateError with
    | Some _ => throw "Failed to update user profile"
    | None => ret tt
    end
  else ret tt.

Definition revenuecat_webhook (env : gmap string string) (o : Oracle) (req : Request)
  : Eff Response :=
  let REVENUECAT_SECRET_API_KEY := Deno_env_get env "REVENUECAT_SECRET_API_KEY" in
  let SUPABASE_URL := Deno_env_get env "SUPABASE_URL" in
  let SUPABASE_SERVICE_ROLE_KEY := Deno_env_get env "SUPABASE_SERVICE_ROLE_KEY" in
  if String.eqb (method req) "OPTIONS" then ret (json 200 NoBody)
  else
    try_catch
      (if negb (truthy REVENUECAT_SECRET_API_KEY) || negb (truthy SUPABASE_URL)
          || negb (truthy SUPABASE_SERVICE_ROLE_KEY)
       then throw "Missing required environment variables"
       else if negb (String.eqb (method req) "POST")
       then ret (json 405 (Failure "Method not allowed. Use POST."))
       else
         let signature := x_signature req in
         if negb (truthy signature)
         then ret (json 400 (Failure "Missing RevenueCat signature"))
         else
           let body := text req in
           let isValidSignature :=
             verifySignature body (the_string signature)
               (the_string REVENUECAT_SECRET_API_KEY) in
           if negb isValidSignature
           then ret (json 400 (Failure "Webhook signature verification failed"))
           else
             event <~ lift (JSON_parse_event body) ;;
             _ <~ handle_event o event ;;
             ret (json 200 Received))
      (fun message => ret (json 500 (Failure message))).

End Webhook.

(** ** 4.4 Subscription verifier: [verify-subscription] *)

(** The object given to [.update] once the session is found completed:
    [revenuecat_user_id] is not among its columns. *)
Definition verified_patch (tier : SubscriptionTier) (expires updated : string)
    (row : Profile) : Profile :=
  {| name := name row;
     subscription_status := status_premium;
     subscription_tier := tier;
     subscription_expires_at := Some expires;
     revenuecat_user_id := revenuecat_user_id row;
     updated_at := updated |}.

(** [session.payment_status !== 'paid' && session.status !== 'complete'] *)
Definition payment_not_completed (session : Session) : bool :=
  negb (String.eqb (payment_status session) "paid") &&
  negb (strict_eq "complete" (session_status session)).

(** [const isMonthly = priceId === Deno.env.get('STRIPE_PRICE_ID_MONTHLY');
     const tier = isMonthly ? 'premium' : 'premium_plus'] *)
Definition tier_of_price (env : gmap string string) (priceId : string) : SubscriptionTier :=
  let isMonthly := strict_eq priceId (Deno_env_get env "STRIPE_PRICE_ID_MONTHLY") in
  if isMonthly then tier_premium else tier_premium_plus.

Section Verify.
Context `{Platform}.

(** [subscription.items.data[0].price.id]: a [TypeError] without items. *)
Definition first_price_id (subscription : Subscription) : completion string :=
  match item_price_ids subscription with
  | priceId :: _ => Normal priceId
  | [] => Throw "Cannot read properties of undefined (reading 'price')"
  end.

(** [new Date(subscription.current_period_end * 1000).toISOString()] *)
Definition period_end_iso (subscription : Subscription) : completion string :=
  toISOString (Date_of_ms (current_period_end subscription * 1000)).

(** The inner [try] block: everything from the session retrieval on. *)
Definition verify_session (env : gmap string string) (o : Oracle)
    (sessionId userId : string) : Eff Response :=
  session <~ sessions_retrieve o sessionId ;;
  match session with
  | None => ret (json 400 (Failure "Invalid session ID"))
  | Some session =>
      if payment_not_completed session
      then ret (json 200 (PaymentNotCompleted (session_status session)
                                              (payment_status session)))
      else if negb (truthy (session_subscription session))
      then ret (json 400 (Failure "No subscription found in session"))
      else
        subscription <~ subscriptions_retrieve o (the_string (session_subscription session)) ;;
        priceId <~ lift (first_price_id subscription) ;;
        let tier := tier_of_price env priceId in
        expires <~ lift (period_end_iso subscription) ;;
        updateError <~ update_profile o (verified_patch tier expires (now o)) userId ;;
        match updateError with
        | Some _ =>
            ret (json 500 (Failure "Failed to update user profile with subscription info"))
        | None =>
            expires <~ lift (period_end_iso subscription) ;;
            ret (json 200 (Verified tier expires))
        end
  end.

Definition verify_subscription (env : gmap string string) (o : Oracle) (req : Request)
  : Eff Response :=
  let STRIPE_SECRET_KEY := Deno_env_get env "STRIPE_SECRET_KEY" in
  let SUPABASE_URL := Deno_env_get env "SUPABASE_URL" in
  let SUPABASE_SERVICE_ROLE_KEY := Deno_env_get env "SUPABASE_SERVICE_ROLE_KEY" in
  if String.eqb (method req) "OPTIONS" then ret (json 200 NoBody)
  else
    try_catch
      (if negb (truthy STRIPE_SECRET_KEY)
       then ret (json 500 (Failure "Stripe secret key is not configured"))
       else if negb (truthy SUPABASE_URL) || negb (truthy SUPABASE_SERVICE_ROLE_KEY)
       then ret (json 500 (Failure "Supabase credentials are not configured"))
       else if negb (String.eqb (method req) "POST")
       then ret (json 405 (Failure "Method not allowed. Use POST."))
       else
         requestData <~ lift (json_verify (text req)) ;;
         let sessionId := vr_sessionId requestData in
         let userId := vr_userId requestData in
         if negb (truthy sessionId) || negb (truthy userId)
         then ret (json 400 (Failure "Session ID and User ID are required"))
         else
           try_catch
             (verify_session env o (the_string sessionId) (the_string userId))
             (fun _ => ret (json 500 (Failure "Failed to verify subscription status"))))
      (fun _ => ret (json 500 (Failure "An unexpected error occurred"))).

End Verify.

(** ** 4.2, 4.3 Customer resolver and checkout: [create-checkout-session] *)

(** [.update({ revenuecat_user_id: customerId })] *)
Definition customer_patch (customerId : string) (row : Profile) : Profile :=
  {| name := name row;
     subscription_status := subscription_status row;
     subscription_tier := subscription_tier row;
     subscription_expires_at := subscription_expires_at row;
     revenuecat_user_id := Some customerId;
     updated_at := updated_at row |}.

(** [profileError && profileError.code !== 'PGRST116'] *)
Definition is_hard_error (profileError : option PostgrestError) : bool :=
  match profileError with
  | Some e => negb (is_PGRST116 e)
  | None => false
  end.

(** [profile?.revenuecat_user_id] *)
Definition stored_customer_id (profile : option (option string)) : option string :=
  match profile with
  | Some column => column
  | None => None
  end.

(** [missingVars.join(', ')] *)
Fixpoint join_comma (parts : list string) : string :=
  match parts with
  | [] => ""
  | [p] => p
  | p :: rest => p ++ ", " ++ join_comma rest
  end.

Section Checkout.
Context `{Platform}.

(** The names pushed onto [missingVars], in order. *)
Definition missingVars (env : gmap string string) : list string :=
  let need key := if truthy (Deno_env_get env key) then [] else [key] in
  need "STRIPE_SECRET_KEY" ++ need "SUPABASE_URL" ++ need "SUPABASE_SERVICE_ROLE_KEY" ++
  need "STRIPE_PRICE_ID_MONTHLY" ++ need "STRIPE_PRICE_ID_YEARLY".

(** [Deno.env.get('APP_URL') || 'http://localhost:5173'] *)
Definition APP_URL (env : gmap string string) : string :=
  the_string (or_else (Deno_env_get env "APP_URL") (Some "http://localhost:5173")).

(** Lines 157-172: is the stored id, if any, known to the provider? *)
Definition customer_exists (o : Oracle) (customerId : option string) : Eff bool :=
  if truthy customerId then
    try_catch
      (_ <~ customers_retrieve o (the_string customerId) ;; ret true)
      (fun _ => ret false)
  else ret false.

(** Lines 174-216: create and record a customer when none exists.  The
    result is the customer id to check out with, or the response the
    handler returns at once. *)
Definition resolve_customer (o : Oracle) (userId email : string) (name : option string)
    (customerId : option string) : Eff (Response + string) :=
  customerExists <~ customer_exists o customerId ;;
  if negb customerExists then
    try_catch
      (customer <~ customers_create o email
                     (the_string (or_else name (Some (split_head "@" email))))
                     [("userId", userId)] ;;
       let customerId := customer_id customer in
       updateError <~ update_profile o (customer_patch customerId) userId ;;
       (* both arms of [if (updateError)] only log *)
       ret (inr customerId))
      (fun _ => ret (inl (json 500 (Failure "Failed to create Stripe customer"))))
  else ret (inr (the_string customerId)).

(** Lines 218-281. *)
Definition open_checkout (env : gmap string string) (o : Oracle)
    (customerId priceId userId : string) : Eff Response :=
  try_catch
    (session <~ sessions_create o customerId priceId 7 [("userId", userId)]
                  (APP_URL env ++ "/home?subscription=success&session_id={CHECKOUT_SESSION_ID}&t="
                     ++ now_ms o)
                  (APP_URL env ++ "/premium?subscription=canceled&t=" ++ now_ms o) ;;
     ret (json 200 (CheckoutCreated (session_url session) (session_id session))))
    (fun message => ret (json 500 (Failure message))).

Definition create_checkout_session (env : gmap string string) (o : Oracle) (req : Request)
  : Eff Response :=
  let MONTHLY := Deno_env_get env "STRIPE_PRICE_ID_MONTHLY" in
  let YEARLY := Deno_env_get env "STRIPE_PRICE_ID_YEARLY" in
  if String.eqb (method req) "OPTIONS" then ret (json 200 NoBody)
  else
    try_catch
      (if (0 <? length (missingVars env))%nat
       then ret (json 500 (Failure ("Missing required environment variables: "
                    ++ join_comma (missingVars env)
                    ++ ". Please configure these in your Supabase project settings.")))
       else if negb (String.eqb (method req) "POST")
       then ret (json 405 (Failure "Method not allowed. Use POST."))
       else
         requestData <~ lift (json_checkout (text req)) ;;
         let priceId := cr_priceId requestData in
         let userId := cr_userId requestData in
         let email := cr_email requestData in
         let name := cr_name requestData in
         if negb (truthy priceId) || negb (truthy userId) || negb (truthy email)
         then ret (json 400 (Failure
                "Missing required fields: priceId, userId, and email are required"))
         else if negb (strict_eq (the_string priceId) MONTHLY)
                 && negb (strict_eq (the_string priceId) YEARLY)
         then ret (json 400 (Failure ("Invalid price ID: " ++ the_string priceId
                    ++ ". Expected one of: " ++ the_string MONTHLY ++ ", "
                    ++ the_string YEARLY)))
         else
           selected <~ select_revenuecat_user_id o (the_string userId) ;;
           let '(profile, profileError) := selected in
           if is_hard_error profileError
           then ret (json 500 (Failure "Failed to fetch user profile from database"))
           else
             resolved <~ resolve_customer o (the_string userId) (the_string email) name
                           (stored_customer_id profile) ;;
             match resolved with
             | inl response => ret response
             | inr customerId =>
                 open_checkout env o customerId (the_string priceId) (the_string userId)
             end)
      (fun message => ret (json 500 (Failure message))).

End Checkout.

(** ** Signup-triggered customer creation: [create-stripe-customer] *)

Definition error_message (e : PostgrestError) : string :=
  match e with
  | PGRST116 => "JSON object requested, multiple (or no) rows returned"
  | OtherError message => message
  end.

Section Signup.
Context `{Platform}.

Definition create_stripe_customer (env : gmap string string) (o : Oracle) (req : Request)
  : Eff Response :=
  let STRIPE_SECRET_KEY := Deno_env_get env "STRIPE_SECRET_KEY" in
  let SUPABASE_URL := Deno_env_get env "SUPABASE_URL" in
  let SUPABASE_SERVICE_ROLE_KEY := Deno_env_get env "SUPABASE_SERVICE_ROLE_KEY" in
  if String.eqb (method req) "OPTIONS" then ret (json 200 NoBody)
  else
    try_catch
      (if negb (truthy STRIPE_SECRET_KEY)
       then throw "STRIPE_SECRET_KEY is not configured"
       else if negb (truthy SUPABASE_URL) || negb (truthy SUPABASE_SERVICE_ROLE_KEY)
       then throw "Supabase credentials are not configured"
       else
         record <~ lift (json_signup (text req)) ;;
         match record with
         | None => ret (json 400 (Failure "Invalid webhook payload. Missing user data."))
         | Some record =>
             if negb (truthy (rec_id record)) || negb (truthy (rec_email record))
             then ret (json 400 (Failure "Invalid webhook payload. Missing user data."))
             else
               let id := the_string (rec_id record) in
               let email := the_string (rec_email record) in
               selected <~ select_revenuecat_user_id o id ;;
               let '(profile, profileError) := selected in
               if is_hard_error profileError
               then throw ("Failed to fetch user profile: "
                             ++ from_option error_message "" profileError)
               else if truthy (stored_customer_id profile)
               then ret (json 200 (CustomerLinked "User already has a Stripe customer ID"
                                     (the_string (stored_customer_id profile))))
               else
                 customer <~ customers_create o email
                               (the_string (or_else (rec_metadata_name record)
                                                    (Some (split_head "@" email))))
                               [("supabase_user_id", id)] ;;
                 updateError <~ update_profile o (customer_patch (customer_id customer)) id ;;
                 match updateError with
                 | Some e => throw ("Failed to update user profile: " ++ error_message e)
                 | None =>
                     ret (json 200 (CustomerLinked
                            "Stripe customer created and linked to user profile"
                            (customer_id customer)))
                 end
         end)
      (fun message => ret (json 500 (Failure message))).

End Signup.

(** ** Operations of the subsystem *)

(** One request to one of the four endpoints, with the environment the
    function is deployed with and what the outside does meanwhile. *)
Inductive Operation : Type :=
| WebhookDelivery (env : gmap string string) (o : Oracle) (req : Request)
| SubscriptionCheck (env : gmap string string) (o : Oracle) (req : Request)
| CheckoutStart (env : gmap string string) (o : Oracle) (req : Request)
| SignupTrigger (env : gmap string string) (o : Oracle) (req : Request).

Section Operations.
Context `{Platform}.

Definition endpoint (op : Operation) : Eff Response :=
  match op with
  | WebhookDelivery env o req => revenuecat_webhook env o req
  | SubscriptionCheck env o req => verify_subscription env o req
  | CheckoutStart env o req => create_checkout_session env o req
  | SignupTrigger env o req => create_stripe_customer env o req
  end.

Definition perform (w : World) (op : Operation) : World :=
  snd (serve (endpoint op) w).

(** The world after a sequence of requests, served one after another. *)
Definition perform_all (ops : list Operation) (w : World) : World :=
  fold_left perform ops w.

(** The function is deployed with its three settings. *)
Definition webhook_configured (env : gmap string string) : bool :=
  truthy (Deno_env_get env "REVENUECAT_SECRET_API_KEY") &&
  truthy (Deno_env_get env "SUPABASE_URL") &&
  truthy (Deno_env_get env "SUPABASE_SERVICE_ROLE_KEY").

(** The signature check of the handler on a request, as a predicate:
    a non-empty [X-Signature] that [verifySignature] accepts for the
    request text under the configured secret. *)
Definition signature_accepted (env : gmap string string) (req : Request) : bool :=
  truthy (x_signature req) &&
  verifySignature (text req) (the_string (x_signature req))
    (the_string (Deno_env_get env "REVENUECAT_SECRET_API_KEY")).

(** A request signed as the sender signs it: its [X-Signature] header is
    the hex HMAC-SHA256 of its text under the configured secret. *)
Definition correctly_signed (env : gmap string string) (req : Request) : Prop :=
  ∃ digest,
    hmac_sha256_hex (the_string (Deno_env_get env "REVENUECAT_SECRET_API_KEY"))
      (text req) = Normal digest ∧
    x_signature req = Some digest.

(** The delivery of an event by the sender: a correctly signed POST to
    the configured function whose body is [event]. *)
Definition signed_event (env : gmap string string) (req : Request)
    (event : RevenueCatEvent) : Prop :=
  webhook_configured env = true ∧
  method req = "POST" ∧
  correctly_signed env req ∧
  JSON_parse_event (text req) = Normal event.

(** The settings [verify-subscription] checks before anything else. *)
Definition verifier_configured (env : gmap string string) : bool :=
  truthy (Deno_env_get env "STRIPE_SECRET_KEY") &&
  truthy (Deno_env_get env "SUPABASE_URL") &&
  truthy (Deno_env_get env "SUPABASE_SERVICE_ROLE_KEY").

(** A well-formed verification request for [sessionId] by [userId]. *)
Definition verify_request (env : gmap string string) (req : Request)
    (sessionId userId : string) : Prop :=
  verifier_configured env = true ∧
  method req = "POST" ∧
  sessionId ≠ "" ∧ userId ≠ "" ∧
  json_verify (text req) =
    Normal {| vr_sessionId := Some sessionId; vr_userId := Some userId |}.

(** A well-formed checkout request: all settings present, the fields
    given, the price one of the two configured ones. *)
Definition checkout_request (env : gmap string string) (req : Request)
    (priceId userId email : string) (name : option string) : Prop :=
  missingVars env = [] ∧
  method req = "POST" ∧
  priceId ≠ "" ∧ userId ≠ "" ∧ email ≠ "" ∧
  json_checkout (text req) =
    Normal {| cr_priceId := Some priceId; cr_userId := Some userId;
              cr_email := Some email; cr_name := name |} ∧
  (strict_eq priceId (Deno_env_get env "STRIPE_PRICE_ID_MONTHLY") = true ∨
   strict_eq priceId (Deno_env_get env "STRIPE_PRICE_ID_YEARLY") = true).

End Operations.

(** The three subscription columns of a row that may be missing. *)
Definition subscription_columns (row : option Profile)
  : option (SubscriptionStatus * SubscriptionTier * option string) :=
  match row with
  | Some p => Some (subscription_status p, subscription_tier p, subscription_expires_at p)
  | None => None
  end.

(** The billing customer id stored for a user, [None] when the row has
    none or the user has no row. *)
Definition customer_of (w : World) (user_id : string) : option string :=
  match profiles w !! user_id with
  | Some p => revenuecat_user_id p
  | None => None
  end.

(** ** 4.6 Portal redirector: [create-portal-session] *)

(** [interface PortalRequest]. *)
Record PortalRequest : Type := {
  pr_userId : option string;
}.

(** What the provider decides when asked for a portal session. *)
Record PortalOracle : Type := {
  portal_create_fails : bool;
  new_portal_url : option string;
}.

(** The JSON bodies of [create-portal-session]. *)
Inductive PortalBody : Type :=
| PortalNoBody
| PortalFailure (error : string)
| PortalCreated (url : option string).

Record PortalResponse : Type := {
  portal_status : nat;
  portal_body : PortalBody;
}.

Definition portal_json (code : nat) (b : PortalBody) : PortalResponse :=
  {| portal_status := code; portal_body := b |}.

(** [stripe.billingPortal.sessions.create({ customer, return_url })]: the
    URL of the new portal session; throws for a customer the provider
    does not hold.  The portal session is not one of the provider objects
    the handlers read back, so the world keeps no record of it. *)
Definition portal_sessions_create (po : PortalOracle) (customer return_url : string)
  : Eff (option string) :=
  fun w =>
    if portal_create_fails po then (Throw "An error occurred with our connection to Stripe.", w)
    else match List.find (has_customer_id customer) (customers (stripe w)) with
         | Some _ => (Normal (new_portal_url po), w)
         | None => (Throw ("No such customer: " ++ customer), w)
         end.

Section Portal.
Context (json_portal : string → completion PortalRequest).

Definition create_portal_session (env : gmap string string) (o : Oracle)
    (po : PortalOracle) (req : Request) : Eff PortalResponse :=
  let STRIPE_SECRET_KEY := Deno_env_get env "STRIPE_SECRET_KEY" in
  let SUPABASE_URL := Deno_env_get env "SUPABASE_URL" in
  let SUPABASE_SERVICE_ROLE_KEY := Deno_env_get env "SUPABASE_SERVICE_ROLE_KEY" in
  if String.eqb (method req) "OPTIONS" then ret (portal_json 200 PortalNoBody)
  else
    try_catch
      (if negb (truthy STRIPE_SECRET_KEY)
       then ret (portal_json 500 (PortalFailure "Stripe secret key is not configured"))
       else if negb (truthy SUPABASE_URL) || negb (truthy SUPABASE_SERVICE_ROLE_KEY)
       then ret (portal_json 500 (PortalFailure "Supabase credentials are not configured"))
       else if negb (String.eqb (method req) "POST")
       then ret (portal_json 405 (PortalFailure "Method not allowed. Use POST."))
       else
         requestData <~ lift (json_portal (text req)) ;;
         let userId := pr_userId requestData in
         if negb (truthy userId)
         then ret (portal_json 400 (PortalFailure "User ID is required"))
         else
           selected <~ select_revenuecat_user_id o (the_string userId) ;;
           let '(profile, profileError) := selected in
           match profileError with
           | Some _ => ret (portal_json 500 (PortalFailure "Failed to fetch user profile"))
           | None =>
               let customerId := stored_customer_id profile in
               if negb (truthy customerId)
               then ret (portal_json 400
                           (PortalFailure "No Stripe customer ID found for this user"))
               else
                 try_catch
                   (url <~ portal_sessions_create po (the_string customerId)
                             (APP_URL env ++ "/settings") ;;
                    ret (portal_json 200 (PortalCreated url)))
                   (fun _ => ret (portal_json 500
                                    (PortalFailure "Failed to create customer portal session")))
           end)
      (fun _ => ret (portal_json 500 (PortalFailure "An unexpected error occurred"))).

End Portal.

(** ** The client hook: [src/hooks/useStripe.ts] *)

Module UseStripe.

(** The signed-in user of [useAuth]. *)
Record User : Type := {
  user_id : string;
  user_email : option string;
  user_name : option string;
}.

(** The two pieces of hook state. *)
Record HookState : Type := {
  isLoading : bool;
  error : option string;
}.

Inductive ErrorCode : Type := NETWORK_REQUEST_FAILED | UNKNOWN_ERROR.

(** What the [catch] block can receive: an error made by [createAppError],
    or the [TypeError] of reading a member of a [null] [data]. *)
Inductive Thrown : Type :=
| AppError (code : ErrorCode) (message : string)
| TypeError (message : string).

(** The members of [data] the hook reads. *)
Record Data : Type := {
  data_success : option bool;
  data_url : option string;
  data_error : option string;
}.

(** The result [{ data, error }] of [supabase.functions.invoke]. *)
Record Invoked : Type := {
  data : option Data;
  functionError : option string;
}.

(** [!!data.success] *)
Definition truthy_flag (v : option bool) : bool :=
  match v with
  | Some b => b
  | None => false
  end.

Section Hook.
(** The hook is written against two things it imports: the function
    client, which acts on whatever the backend is, and the message
    table of [types/errors]. *)
Context {Backend : Type}.
Context (invoke : string → list (string * option string) → Backend → Invoked * Backend).
Context (getUserFriendlyErrorMessage : Thrown → string).

(** The [catch] and [finally] blocks shared by the three functions: the
    value is returned, or the message is stored and [failed] returned. *)
Definition settle {A} (failed : A) (outcome : Thrown + A) : A * HookState :=
  match outcome with
  | inr value => (value, {| isLoading := false; error := None |})
  | inl err =>
      (failed, {| isLoading := false; error := Some (getUserFriendlyErrorMessage err) |})
  end.

(** Lines 48-64: what the [try] block makes of an invocation that must
    carry a URL. *)
Definition url_of (fallback : string) (invoked : Invoked) : Thrown + option string :=
  match functionError invoked with
  | Some _ => inl (AppError NETWORK_REQUEST_FAILED fallback)
  | None =>
      match data invoked with
      | None => inl (TypeError "Cannot read properties of null (reading 'success')")
      | Some d =>
          if negb (truthy_flag (data_success d)) || negb (truthy (data_url d))
          then inl (AppError UNKNOWN_ERROR
                      (the_string (or_else (data_error d) (Some fallback))))
          else inr (data_url d)
      end
  end.

Definition createCheckoutSession (user : option User) (priceId : string)
    (st : HookState) (backend : Backend) : option string * HookState * Backend :=
  match user with
  | None =>
      (None,
       {| isLoading := isLoading st; error := Some "You must be logged in to subscribe" |},
       backend)
  | Some user =>
      if negb (truthy (Some priceId))
      then (None, {| isLoading := isLoading st; error := Some "Invalid price ID" |}, backend)
      else
        let '(invoked, backend') :=
          invoke "create-checkout-session"
            [("priceId", Some priceId); ("userId", Some (user_id user));
             ("email", user_email user); ("name", user_name user)] backend in
        (settle None (url_of "Failed to create checkout session" invoked), backend')
  end.

(** Lines 100-116. *)
Definition verified_of (invoked : Invoked) : Thrown + bool :=
  match functionError invoked with
  | Some _ => inl (AppError NETWORK_REQUEST_FAILED "Failed to verify subscription")
  | None =>
      match data invoked with
      | None => inl (TypeError "Cannot read properties of null (reading 'success')")
      | Some d =>
          if negb (truthy_flag (data_success d))
          then inl (AppError UNKNOWN_ERROR
                      (the_string (or_else (data_error d)
                                     (Some "Failed to verify subscription"))))
          else inr true
      end
  end.

Definition handleSubscriptionSuccess (user : option User) (sessionId : string)
    (st : HookState) (backend : Backend) : bool * HookState * Backend :=
  match user with
  | None =>
      (false,
       {| isLoading := isLoading st;
          error := Some "You must be logged in to verify subscription" |},
       backend)
  | Some user =>
      let '(invoked, backend') :=
        invoke "verify-subscription"
          [("sessionId", Some sessionId); ("userId", Some (user_id user))] backend in
      (settle false (verified_of invoked), backend')
  end.

Definition redirectToCustomerPortal (user : option User)
    (st : HookState) (backend : Backend) : option string * HookState * Backend :=
  match user with
  | None =>
      (None,
       {| isLoading := isLoading st;
          error := Some "You must be logged in to manage your subscription" |},
       backend)
  | Some user =>
      let '(invoked, backend') :=
        invoke "create-portal-session" [("userId", Some (user_id user))] backend in
      (settle None (url_of "Failed to create customer portal session" invoked), backend')
  end.

(** [clearError: () => setError(null)] *)
Definition clearError (st : HookState) : HookState :=
  {| isLoading := isLoading st; error := None |}.

End Hook.

End UseStripe.

(** ** A stand-in platform and sample data

    Used to run the handlers on concrete requests.  The MAC of the
    runtime's Web Crypto is here a two-byte checksum and the parsers
    know a handful of texts; the theorems below hold for every
    [Platform], and in particular for the real one. *)

Module Sample.

Definition checksum (key data : list byte) : list byte :=
  let n := fold_left (fun acc b => (acc * 31 + Byte.to_N b) mod 65536)%N (key ++ data) 7%N in
  [default x00 (Byte.of_N (n / 256)); default x00 (Byte.of_N (n mod 256))].

Definition lookup_text {A} (table : list (string * A)) (text : string) : completion A :=
  match List.find (fun entry => String.eqb (fst entry) text) table with
  | Some entry => Normal (snd entry)
  | None => Throw "Unexpected token in JSON"
  end.

Definition purchase_text : string :=
  "{event:{type:INITIAL_PURCHASE,app_user_id:user-1,product_id:yearly_premium,expires_date:2025-07-01T00:00:00Z}}".
Definition purchase_event : RevenueCatEvent :=
  {| ev_type := "INITIAL_PURCHASE"; app_user_id := "user-1";
     product_id := "yearly_premium"; expires_date := Some "2025-07-01T00:00:00Z" |}.

Definition cancellation_text : string :=
  "{event:{type:CANCELLATION,app_user_id:user-1,product_id:yearly_premium}}".
Definition cancellation_event : RevenueCatEvent :=
  {| ev_type := "CANCELLATION"; app_user_id := "user-1";
     product_id := "yearly_premium"; expires_date := None |}.

Definition verify_text : string := "{sessionId:cs_open,userId:user-1}".
Definition verify_paid_text : string := "{sessionId:cs_paid,userId:user-1}".
Definition checkout_text : string :=
  "{priceId:price_monthly,userId:user-1,email:ada@example.org}".
Definition signup_text : string := "{record:{id:user-1,email:ada@example.org}}".

(** [importKey] and [sign] stand for the runtime's Web Crypto, with which
    the sender's digest is defined; [verifySignature] does not reach
    them (see [crypto_subtle]). *)
Definition platform : Platform :=
  {| CryptoKey := list byte;
     importKey key :=
       match key with
       | [] => Throw "Key length is zero"
       | _ => Normal key
       end;
     sign key data := Normal (checksum key data);
     JSON_parse_event :=
       lookup_text [(purchase_text, purchase_event); (cancellation_text, cancellation_event)];
     json_verify :=
       lookup_text
         [(verify_text, {| vr_sessionId := Some "cs_open"; vr_userId := Some "user-1" |});
          (verify_paid_text, {| vr_sessionId := Some "cs_paid"; vr_userId := Some "user-1" |})];
     json_checkout :=
       lookup_text
         [(checkout_text,
           {| cr_priceId := Some "price_monthly"; cr_userId := Some "user-1";
              cr_email := Some "ada@example.org"; cr_name := None |})];
     json_signup :=
       lookup_text
         [(signup_text,
           Some {| rec_id := Some "user-1"; rec_email := Some "ada@example.org";
                   rec_metadata_name := None |})];
     Date_parse text :=
       if String.eqb text "2025-07-01T00:00:00Z" then Some 1751328000000%Z else None;
     iso_string t :=
       if (t =? 1751328000000)%Z then "2025-07-01T00:00:00.000Z"
       else if (t =? 1753920000000)%Z then "2025-07-31T00:00:00.000Z"
       else "1970-01-01T00:00:00.000Z" |}.

Definition env : gmap string string :=
  list_to_map
    [("REVENUECAT_SECRET_API_KEY", "whsec"); ("SUPABASE_URL", "https://project.supabase.co");
     ("SUPABASE_SERVICE_ROLE_KEY", "service-role"); ("STRIPE_SECRET_KEY", "sk_test");
     ("STRIPE_PRICE_ID_MONTHLY", "price_monthly"); ("STRIPE_PRICE_ID_YEARLY", "price_yearly")].

(** A body as the sender delivers it: with the hex digest of the body
    under the secret in the [X-Signature] header. *)
Definition signed (body : string) : Request :=
  {| method := "POST";
     x_signature :=
       Some (@hexEncode (checksum (TextEncoder_encode "whsec") (TextEncoder_encode body)));
     text := body |}.

(** A POST without an [X-Signature] header. *)
Definition post (body : string) : Request :=
  {| method := "POST"; x_signature := None; text := body |}.

(** Every collaborator answers. *)
Definition calm : Oracle :=
  {| now := "2025-06-22T20:49:46.000Z"; now_ms := "1750625386000";
     select_fails := false; update_fails := false;
     customers_retrieve_fails := false; customers_create_fails := false;
     sessions_create_fails := false; sessions_retrieve_fails := false;
     subscriptions_retrieve_fails := false;
     new_customer_id := "cus_new"; new_session_id := "cs_new";
     new_session_url := Some "https://checkout.stripe.com/c/pay/cs_new" |}.

(** The same, except that the [profiles] update is refused. *)
Definition write_refused : Oracle :=
  {| now := now calm; now_ms := now_ms calm;
     select_fails := false; update_fails := true;
     customers_retrieve_fails := false; customers_create_fails := false;
     sessions_create_fails := false; sessions_retrieve_fails := false;
     subscriptions_retrieve_fails := false;
     new_customer_id := "cus_new"; new_session_id := "cs_new";
     new_session_url := new_session_url calm |}.

Definition open_session : Session :=
  {| session_id := "cs_open"; session_url := None;
     session_status := Some "open"; payment_status := "unpaid";
     session_subscription := None; session_customer := Some "cus_1";
     session_price := "price_monthly"; trial_period_days := 7;
     session_metadata := [("userId", "user-1")];
     success_url := "https://app/home"; cancel_url := "https://app/premium" |}.

Definition paid_session : Session :=
  {| session_id := "cs_paid"; session_url := None;
     session_status := Some "complete"; payment_status := "paid";
     session_subscription := Some "sub_1"; session_customer := Some "cus_1";
     session_price := "price_monthly"; trial_period_days := 7;
     session_metadata := [("userId", "user-1")];
     success_url := "https://app/home"; cancel_url := "https://app/premium" |}.

Definition monthly_subscription : Subscription :=
  {| item_price_ids := ["price_monthly"]; current_period_end := 1753920000 |}.

Definition cus_1 : Customer :=
  {| customer_id := "cus_1"; customer_email := "ada@example.org";
     customer_name := "ada"; customer_metadata := [("userId", "user-1")] |}.


Definition provider : Stripe :=
  {| customers := [cus_1]; sessions := [open_session; paid_session];
     subscriptions := {[ "sub_1" := monthly_subscription ]} |}.

(** A user fresh from signup, and one already known to the provider. *)
Definition fresh_row : Profile := new_profile "Ada" "2025-06-22T20:49:46.000Z".

Definition linked_row : Profile :=
  {| name := "Ada"; subscription_status := status_premium;
     subscription_tier := tier_premium;
     subscription_expires_at := Some "2025-06-30T00:00:00.000Z";
     revenuecat_user_id := Some "cus_1";
     updated_at := "2025-06-22T20:49:46.000Z" |}.

Definition fresh_world : World :=
  {| profiles := {[ "user-1" := fresh_row ]}; stripe := provider |}.

Definition linked_world : World :=
  {| profiles := {[ "user-1" := linked_row ]}; stripe := provider |}.

End Sample.

(** ** Reading relations used in the statements *)

(** The value of a lowercase hexadecimal digit: its place in [hex_digits]. *)
Definition digit_value (c : ascii) : option N :=
  option_map N.of_nat (String.index 0 (String c EmptyString) hex_digits).

(** The bytes a string of lowercase hexadecimal pairs stands for. *)
Fixpoint unhex (s : string) : option (list byte) :=
  match s with
  | EmptyString => Some []
  | String hi (String lo rest) =>
      match digit_value hi, digit_value lo, unhex rest with
      | Some h, Some l, Some bytes =>
          option_map (fun b => b :: bytes) (Byte.of_N (h * 16 + l))
      | _, _, _ => None
      end
  | String _ EmptyString => None
  end.

(** The same platform with another [JSON.parse]. *)
Definition with_JSON_parse_event (P : Platform)
    (parse : string → completion RevenueCatEvent) : Platform :=
  {| CryptoKey := @CryptoKey P; importKey := @importKey P; sign := @sign P;
     JSON_parse_event := parse;
     json_verify := @json_verify P; json_checkout := @json_checkout P;
     json_signup := @json_signup P;
     Date_parse := @Date_parse P; iso_string := @iso_string P |}.

(** A row keeps a billing customer id when it has one. *)
Definition keeps_customer (patch : Profile → Profile) : Prop :=
  ∀ row, is_Some (revenuecat_user_id row) → is_Some (revenuecat_user_id (patch row)).

(** Between two worlds no user has lost a billing customer id. *)
Definition no_customer_cleared (w w' : World) : Prop :=
  ∀ user_id row,
    profiles w !! user_id = Some row →
    is_Some (revenuecat_user_id row) →
    ∃ row', profiles w' !! user_id = Some row' ∧ is_Some (revenuecat_user_id row').

(** A computation whose every run, normal or thrown, relates the world
    it starts in to the world it leaves. *)
Definition respects {A} (R : World → World → Prop) (m : Eff A) : Prop :=
  ∀ w, R w (snd (m w)).

(** The provider's objects are the same in both worlds. *)
Definition same_provider (w w' : World) : Prop := stripe w' = stripe w.

(** The same users have a row in both worlds. *)
Definition same_users (w w' : World) : Prop := dom (profiles w') = dom (profiles w).

(** Every user has the same subscription columns in both worlds. *)
Definition same_subscriptions (w w' : World) : Prop :=
  ∀ user_id,
    subscription_columns (profiles w' !! user_id) =
    subscription_columns (profiles w !! user_id).

(** Every user has the same billing customer id in both worlds. *)
Definition same_customer_ids (w w' : World) : Prop :=
  ∀ user_id, customer_of w' user_id = customer_of w user_id.

(** The provider holds a customer of this id. *)
Definition provider_has (w : World) (id : string) : Prop :=
  ∃ c, c ∈ customers (stripe w) ∧ customer_id c = id.

(** The status code agrees with the body: no body only on the 200 of a
    preflight, a failure body on 400, 405 or 500, every other body on 200. *)
Definition status_matches_body (r : Response) : Prop :=
  match body r with
  | Failure _ => status r = 400 ∨ status r = 405 ∨ status r = 500
  | _ => status r = 200
  end.

(** Every value a computation returns normally satisfies [Q]. *)
Definition returns {A} (Q : A → Prop) (m : Eff A) : Prop :=
  ∀ w, match fst (m w) with
       | Normal a => Q a
       | Throw _ => True
       end.

(** The request an operation serves. *)
Definition request_of (op : Operation) : Request :=
  match op with
  | WebhookDelivery _ _ req | SubscriptionCheck _ _ req
  | CheckoutStart _ _ req | SignupTrigger _ _ req => req
  end.


(** A well-formed portal request to a configured deployment. *)
Definition portal_request (json_portal : string → completion PortalRequest)
    (env : gmap string string) (req : Request) (userId : string) : Prop :=
  truthy (Deno_env_get env "STRIPE_SECRET_KEY") = true ∧
  truthy (Deno_env_get env "SUPABASE_URL") = true ∧
  truthy (Deno_env_get env "SUPABASE_SERVICE_ROLE_KEY") = true ∧
  method req = "POST" ∧
  json_portal (text req) = Normal {| pr_userId := Some userId |} ∧
  userId ≠ "".

(** More sample data: the portal, and a backend for the client hook that
    answers every invocation with one fixed result. *)
Module Scenario.

Definition portal_text : string := "{userId:user-1}".

Definition json_portal (body : string) : completion PortalRequest :=
  Sample.lookup_text [(portal_text, {| pr_userId := Some "user-1" |})] body.

Definition portal_calm : PortalOracle :=
  {| portal_create_fails := false;
     new_portal_url := Some "https://billing.stripe.com/p/session/test_1" |}.

(** An expiration that carries the date the subscription ran out. *)
Definition expiration_text : string :=
  "{event:{type:EXPIRATION,app_user_id:user-1,product_id:yearly_premium,expires_date:2025-07-01T00:00:00Z}}".
Definition expiration_event : RevenueCatEvent :=
  {| ev_type := "EXPIRATION"; app_user_id := "user-1";
     product_id := "yearly_premium"; expires_date := Some "2025-07-01T00:00:00Z" |}.

Definition platform : Platform :=
  with_JSON_parse_event Sample.platform
    (Sample.lookup_text
       [(Sample.purchase_text, Sample.purchase_event);
        (Sample.cancellation_text, Sample.cancellation_event);
        (expiration_text, expiration_event)]).

Definition ada : UseStripe.User :=
  {| UseStripe.user_id := "user-1"; UseStripe.user_email := Some "ada@example.org";
     UseStripe.user_name := None |}.

Definition idle : UseStripe.HookState :=
  {| UseStripe.isLoading := false; UseStripe.error := Some "an earlier failure" |}.

(** A backend that counts the invocations and answers each with [answer]. *)
Definition counting (answer : UseStripe.Invoked)
    (function : string) (body : list (string * option string)) (calls : nat)
  : UseStripe.Invoked * nat :=
  (answer, S calls).

Definition not_paid : UseStripe.Invoked :=
  {| UseStripe.data :=
       Some {| UseStripe.data_success := Some false; UseStripe.data_url := None;
               UseStripe.data_error := Some "Payment not completed" |};
     UseStripe.functionError := None |}.

Definition checkout_ready : UseStripe.Invoked :=
  {| UseStripe.data :=
       Some {| UseStripe.data_success := Some true;
               UseStripe.data_url := Some "https://checkout.stripe.com/c/pay/cs_new";
               UseStripe.data_error := None |};
     UseStripe.functionError := None |}.

(** A deployment whose two plans have other price ids than the one the
    sample checkout request asks for. *)
Definition repriced_env : gmap string string :=
  <["STRIPE_PRICE_ID_MONTHLY" := "price_monthly_v2"]>
    (<["STRIPE_PRICE_ID_YEARLY" := "price_yearly_v2"]> Sample.env).



(** A message table: the message of the error, whatever its code. *)
Definition message_of (err : UseStripe.Thrown) : string :=
  match err with
  | UseStripe.AppError _ message => message
  | UseStripe.TypeError message => message
  end.

End Scenario.

(** * Properties *)

(** ** JavaScript helpers *)

Lemma append_cons (c : ascii) (s t : string) : String c s ++ t = String c (s ++ t).
Proof. reflexivity. Qed.

Lemma append_empty (t : string) : "" ++ t = t.
Proof. reflexivity. Qed.

Lemma prefix_spec (p s : string) :
  String.prefix p s = true ↔ ∃ post, s = p ++ post.
Proof.
  revert s. induction p as [|c p IH]; intros s.
  - destruct s; simpl; split; eauto.
  - destruct s as [|d s]; simpl.
    + split; [discriminate | intros [post Hpost]; discriminate].
    + destruct (Ascii.ascii_dec c d) as [->|Hne].
      * rewrite IH. split; intros [post Hpost]; exists post;
          rewrite append_cons in *; congruence.
      * split; [discriminate | intros [post Hpost]; rewrite append_cons in *; congruence].
Qed.

(** [includes] is the substring test. *)
Lemma includes_spec (s needle : string) :
  includes s needle = true ↔ ∃ pre post, s = pre ++ needle ++ post.
Proof.
  induction s as [|c s IH]; cbn [includes].
  - rewrite orb_false_r, prefix_spec. split.
    + intros [post Hpost]. by exists "", post.
    + intros [pre [post Hs]]. destruct pre; [by exists post | discriminate].
  - rewrite orb_true_iff, prefix_spec, IH. split.
    + intros [[post Hpost] | [pre [post Hs]]].
      * by exists "", post.
      * exists (String c pre), post. rewrite append_cons. by rewrite Hs.
    + intros [pre [post Hs]]. destruct pre as [|d pre].
      * left. by exists post.
      * right. exists pre, post. rewrite append_cons in Hs. congruence.
Qed.

Example includes_yearly : includes "yearly_premium" "yearly" = true.
Proof. reflexivity. Qed.

Example includes_monthly :
  includes "monthly_premium" "yearly" || includes "monthly_premium" "annual" = false.
Proof. reflexivity. Qed.

Example split_head_email : split_head "@" "ada@example.org" = "ada".
Proof. reflexivity. Qed.

(** Every byte becomes exactly two lowercase digits, and they read back. *)
Lemma hex_pair (b : byte) :
  ∃ hi lo, padStart 2 "0" (toString16 b) = String hi (String lo EmptyString) ∧
           digit_value hi = Some (Byte.to_N b / 16)%N ∧
           digit_value lo = Some (Byte.to_N b mod 16)%N.
Proof. destruct b; do 2 eexists; repeat split. Qed.

Lemma hex_cons (b : byte) (bytes : list byte) :
  hex (b :: bytes) = padStart 2 "0" (toString16 b) ++ hex bytes.
Proof. reflexivity. Qed.

Lemma unhex_hex (bytes : list byte) : unhex (hex bytes) = Some bytes.
Proof.
  induction bytes as [|b bytes IH]; [reflexivity|].
  destruct (hex_pair b) as (hi & lo & Hpair & Hhi & Hlo).
  rewrite hex_cons, Hpair, !append_cons, append_empty. simpl.
  rewrite Hhi, Hlo, IH.
  replace (Byte.to_N b / 16 * 16 + Byte.to_N b mod 16)%N with (Byte.to_N b)
    by (rewrite N.mul_comm; apply N.div_mod; discriminate).
  by rewrite Byte.of_to_N.
Qed.

Lemma hex_inj (a b : list byte) : hex a = hex b → a = b.
Proof.
  intros Heq. apply (f_equal unhex) in Heq. rewrite !unhex_hex in Heq. congruence.
Qed.

Lemma hex_length (bytes : list byte) : String.length (hex bytes) = 2 * length bytes.
Proof.
  induction bytes as [|b bytes IH]; [reflexivity|].
  destruct (hex_pair b) as (hi & lo & Hpair & _).
  rewrite hex_cons, Hpair, !append_cons, append_empty. simpl. rewrite IH. lia.
Qed.

Example hex_leading_zero : hex [x0a; xff; x00] = "0aff00".
Proof. reflexivity. Qed.

(** ** 4.1 Signature verifier *)

(** The hex step of the code is the encoding the specification names:
    whatever goes wrong in [verifySignature], it is not the encoding. *)
Lemma hexEncode_hex (bytes : list byte) : hexEncode bytes = hex bytes.
Proof.
  induction bytes as [|b bytes IH]; [reflexivity|].
  rewrite hex_cons, <- IH. destruct b; reflexivity.
Qed.

Section SignatureFacts.
Context `{Platform}.

(** The first call of the [try] block throws: [crypto.subtle] is
    [undefined] in this module. *)
Lemma verifySignature_try_throws (payload signature secretKey : string) :
  verifySignature_try payload signature secretKey =
    Throw "Cannot read properties of undefined (reading 'importKey')".
Proof. reflexivity. Qed.

Lemma verifySignature_false (payload signature secretKey : string) :
  verifySignature payload signature secretKey = false.
Proof. reflexivity. Qed.

(** C5.  The claim fails on the code.  For every body and secret,
    [verifySignature] returns [false] for the hex HMAC-SHA256 of the
    body under the secret, where the claim says [true]: it returns
    [false] for every signature string, because the [try] block throws
    at its first call and the [catch] answers [false].  The part of the
    claim that holds is that it never throws. *)
Theorem verifySignature_rejects_the_digest (rawBody secret : string) :
  (∀ digest,
     hmac_sha256_hex secret rawBody = Normal digest →
     verifySignature rawBody digest secret = false) ∧
  (∀ signature, verifySignature rawBody signature secret = false).
Proof.
  split; [intros digest _|intros signature]; apply verifySignature_false.
Qed.

End SignatureFacts.

Example sample_signature :
  @hmac_sha256_hex Sample.platform "whsec" Sample.purchase_text = Normal "99dc".
Proof. vm_compute. reflexivity. Qed.

(** The claim of C5 at concrete inputs: the digest of the sample body
    under the sample secret is rejected; and so is, for the body
    [hello] under the secret [whsec], the string that is its
    HMAC-SHA256 in lowercase hex (the 64 digits are computed outside
    this development). *)
Lemma verifySignature_rejects_sample_digest :
  @hmac_sha256_hex Sample.platform "whsec" Sample.purchase_text = Normal "99dc" ∧
  @verifySignature Sample.platform Sample.purchase_text "99dc" "whsec" ≠ true ∧
  @verifySignature Sample.platform "hello"
    "bbdb60c6d3c3026568e921e91f6bac1813c06ac8c9317a997c4b67c067f47048" "whsec" ≠ true.
Proof. split; [exact sample_signature | split; discriminate]. Qed.

(** ** 4.5 Webhook event processor *)

Lemma truthy_nonempty (s : string) : s ≠ "" → truthy (Some s) = true.
Proof. intros Hs. simpl. by apply negb_true_iff, String.eqb_neq. Qed.

(** The [case] labels of the two groups are different strings. *)
Lemma lapse_is_not_purchase (type : string) :
  is_lapse_type type = true → is_purchase_type type = false.
Proof.
  unfold is_lapse_type, is_purchase_type.
  rewrite !orb_true_iff, !String.eqb_eq. intros [[->| ->]| ->]; reflexivity.
Qed.

Section WebhookFacts.
Context `{Platform}.

(** No expiry field, no expiry written. *)
Lemma expires_at_absent : expires_at_of_event None = Normal None.
Proof. reflexivity. Qed.

(** The same for the empty string, which is falsy. *)
Lemma expires_at_empty : expires_at_of_event (Some "") = Normal None.
Proof. reflexivity. Qed.

(** A date the platform can read is written in ISO form. *)
Lemma expires_at_present (text : string) (t : Z) :
  text ≠ "" → Date_parse text = Some t → iso_string t ≠ "" →
  expires_at_of_event (Some text) = Normal (Some (iso_string t)).
Proof.
  intros Htext Hdate Hiso. unfold expires_at_of_event.
  rewrite truthy_nonempty by done. simpl. rewrite Hdate. simpl.
  unfold or_else. by rewrite truthy_nonempty.
Qed.

(** Text that is not a date makes [toISOString] throw. *)
Lemma expires_at_invalid (text : string) :
  text ≠ "" → Date_parse text = None →
  expires_at_of_event (Some text) = Throw "Invalid time value".
Proof.
  intros Htext Hdate. unfold expires_at_of_event.
  rewrite truthy_nonempty by done. simpl. by rewrite Hdate.
Qed.


(** What the [switch] does on a cancellation, expiration or billing issue. *)
Lemma handle_lapse_run (o : Oracle) (event : RevenueCatEvent) (w : World) :
  is_lapse_type (ev_type event) = true →
  handle_event o event w =
    match expires_at_of_event (expires_date event) with
    | Throw e => (Throw e, w)
    | Normal expires =>
        if update_fails o then (Throw "Failed to update user profile", w)
        else (Normal tt,
              with_profiles
                (alter (lapse_patch (lapse_status (ev_type event)) expires (now o))
                   (app_user_id event) (profiles w)) w)
    end.
Proof.
  intros Htype. unfold handle_event.
  rewrite (lapse_is_not_purchase _ Htype), Htype.
  unfold bind, lift, update_profile, throw, ret.
  destruct (expires_at_of_event _); [|reflexivity].
  destruct (update_fails o); reflexivity.
Qed.

(** Any other type is acknowledged and ignored. *)
Lemma handle_other_run (o : Oracle) (event : RevenueCatEvent) (w : World) :
  is_purchase_type (ev_type event) = false →
  is_lapse_type (ev_type event) = false →
  handle_event o event w = (Normal tt, w).
Proof. intros Hp Hl. unfold handle_event. by rewrite Hp, Hl. Qed.

(** A request without an accepted signature never reaches [JSON.parse]
    or the table, whatever the method and the settings. *)
Lemma webhook_unsigned_run (env : gmap string string) (o : Oracle) (req : Request)
    (w : World) :
  signature_accepted env req = false →
  serve (revenuecat_webhook env o req) w =
    (if String.eqb (method req) "OPTIONS" then json 200 NoBody
     else if negb (webhook_configured env)
     then json 500 (Failure "Missing required environment variables")
     else if negb (String.eqb (method req) "POST")
     then json 405 (Failure "Method not allowed. Use POST.")
     else if negb (truthy (x_signature req))
     then json 400 (Failure "Missing RevenueCat signature")
     else json 400 (Failure "Webhook signature verification failed"),
     w).
Proof.
  intros Hsig. unfold signature_accepted in Hsig.
  unfold serve, revenuecat_webhook, webhook_configured.
  destruct (String.eqb (method req) "OPTIONS"); [reflexivity|].
  unfold try_catch, throw, ret.
  destruct (truthy (Deno_env_get env "REVENUECAT_SECRET_API_KEY")),
           (truthy (Deno_env_get env "SUPABASE_URL")),
           (truthy (Deno_env_get env "SUPABASE_SERVICE_ROLE_KEY")); simpl; try reflexivity.
  destruct (String.eqb (method req) "POST"); simpl; [|reflexivity].
  destruct (truthy (x_signature req)); simpl in *; [|reflexivity].
  first [reflexivity | by rewrite Hsig].
Qed.

(** No request passes the signature check of the handler. *)
Lemma signature_never_accepted (env : gmap string string) (req : Request) :
  signature_accepted env req = false.
Proof. unfold signature_accepted. rewrite verifySignature_false. apply andb_false_r. Qed.

(** So every request is answered before [JSON.parse] and the [switch]. *)
Lemma webhook_run (env : gmap string string) (o : Oracle) (req : Request) (w : World) :
  serve (revenuecat_webhook env o req) w =
    (if String.eqb (method req) "OPTIONS" then json 200 NoBody
     else if negb (webhook_configured env)
     then json 500 (Failure "Missing required environment variables")
     else if negb (String.eqb (method req) "POST")
     then json 405 (Failure "Method not allowed. Use POST.")
     else if negb (truthy (x_signature req))
     then json 400 (Failure "Missing RevenueCat signature")
     else json 400 (Failure "Webhook signature verification failed"),
     w).
Proof. apply webhook_unsigned_run, signature_never_accepted. Qed.

(** A correctly signed delivery is answered 400 like any other POST. *)
Lemma signed_event_run (env : gmap string string) (o : Oracle) (req : Request)
    (event : RevenueCatEvent) (w : World) :
  signed_event env req event →
  ∃ message,
    serve (revenuecat_webhook env o req) w = (json 400 (Failure message), w).
Proof.
  intros (Hcfg & Hpost & _ & _). rewrite webhook_run, Hcfg, Hpost. simpl.
  destruct (truthy (x_signature req)); simpl; eauto.
Qed.


End WebhookFacts.

Section WebhookProperties.
Context `{P : Platform}.

(** C2.  A webhook request whose [X-Signature] header is missing (or
    empty), or whose signature [verifySignature] does not accept for the
    request text under the configured secret, changes nothing in the
    world; sent as a POST to the configured function it is answered 400
    with [success: false]; and the answer is the same whatever
    [JSON.parse] would make of the body, which is only parsed after the
    check. *)
Theorem webhook_rejects_unverified_request
    (env : gmap string string) (o : Oracle) (req : Request) (w : World) :
  truthy (x_signature req) = false ∨
    verifySignature (text req) (the_string (x_signature req))
      (the_string (Deno_env_get env "REVENUECAT_SECRET_API_KEY")) = false →
  snd (serve (revenuecat_webhook env o req) w) = w ∧
  (webhook_configured env = true → method req = "POST" →
     status (fst (serve (revenuecat_webhook env o req) w)) = 400 ∧
     success (fst (serve (revenuecat_webhook env o req) w)) = Some false) ∧
  (∀ parse,
     serve (@revenuecat_webhook (with_JSON_parse_event P parse) env o req) w =
     serve (revenuecat_webhook env o req) w).
Proof.
  intros Hbad.
  assert (signature_accepted env req = false) as Hsig.
  { unfold signature_accepted. destruct Hbad as [-> | ->]; [reflexivity|].
    apply andb_false_r. }
  split; [|split].
  - by rewrite webhook_unsigned_run.
  - intros Hcfg Hpost. rewrite webhook_unsigned_run by done.
    rewrite Hcfg, Hpost. simpl. by destruct (truthy (x_signature req)).
  - intros parse.
    rewrite (@webhook_unsigned_run (with_JSON_parse_event P parse)) by exact Hsig.
    by rewrite webhook_unsigned_run.
Qed.

(** C3.  The claim fails on the code.  A purchase event (INITIAL_PURCHASE,
    RENEWAL, RESTORE or NON_RENEWING_PURCHASE) that the sender has
    signed correctly, delivered as a POST to the configured function, is
    answered 400 and leaves every row as it was: status, tier, expiry
    and billing customer id are not set, because the signature check
    never passes. *)
Theorem signed_purchase_event_is_rejected
    (env : gmap string string) (o : Oracle) (req : Request) (w : World)
    (event : RevenueCatEvent) :
  signed_event env req event →
  ev_type event = "INITIAL_PURCHASE" ∨ ev_type event = "RENEWAL" ∨
    ev_type event = "RESTORE" ∨ ev_type event = "NON_RENEWING_PURCHASE" →
  ∃ message,
    serve (revenuecat_webhook env o req) w = (json 400 (Failure message), w).
Proof. intros Hsigned _. by apply (signed_event_run _ _ _ event). Qed.

(** C4.  The claim fails on the code.  A correctly signed CANCELLATION,
    EXPIRATION or BILLING_ISSUE event, delivered as a POST to the
    configured function, is answered 400 and leaves every row as it
    was: the status stays what it was and no expiry is written. *)
Theorem signed_lapse_event_is_rejected
    (env : gmap string string) (o : Oracle) (req : Request) (w : World)
    (event : RevenueCatEvent) :
  signed_event env req event →
  ev_type event = "CANCELLATION" ∨ ev_type event = "EXPIRATION" ∨
    ev_type event = "BILLING_ISSUE" →
  ∃ message,
    serve (revenuecat_webhook env o req) w = (json 400 (Failure message), w).
Proof. intros Hsigned _. by apply (signed_event_run _ _ _ event). Qed.

(** C10.  The claim fails on the code.  A correctly signed event of a
    handled type that carries no expiry field is answered 400, and the
    row of its user keeps the expiry it stored: nothing is overwritten
    with null. *)
Theorem signed_event_without_expiry_keeps_stored_expiry
    (env : gmap string string) (o : Oracle) (req : Request) (w : World)
    (event : RevenueCatEvent) (row : Profile) :
  signed_event env req event →
  is_purchase_type (ev_type event) || is_lapse_type (ev_type event) = true →
  expires_date event = None →
  profiles w !! app_user_id event = Some row →
  status (fst (serve (revenuecat_webhook env o req) w)) = 400 ∧
  profiles (snd (serve (revenuecat_webhook env o req) w)) !! app_user_id event
    = Some row.
Proof.
  intros Hsigned _ _ Hrow.
  destruct (signed_event_run env o req event w Hsigned) as [message ->]. by split.
Qed.


End WebhookProperties.

(** *** The webhook on the sample data *)

Lemma sample_purchase_signed :
  @signed_event Sample.platform Sample.env (Sample.signed Sample.purchase_text)
    Sample.purchase_event.
Proof.
  split; [reflexivity|]. split; [reflexivity|]. split; [|reflexivity].
  exists "99dc". split; vm_compute; reflexivity.
Qed.

Lemma sample_cancellation_signed :
  @signed_event Sample.platform Sample.env (Sample.signed Sample.cancellation_text)
    Sample.cancellation_event.
Proof.
  split; [reflexivity|]. split; [reflexivity|]. split; [|reflexivity].
  eexists. split; vm_compute; reflexivity.
Qed.

Lemma scenario_expiration_signed :
  @signed_event Scenario.platform Sample.env (Sample.signed Scenario.expiration_text)
    Scenario.expiration_event.
Proof.
  split; [reflexivity|]. split; [reflexivity|]. split; [|reflexivity].
  eexists. split; vm_compute; reflexivity.
Qed.

Lemma webhook_rejects_unverified_request_witness :
  let run := serve (@revenuecat_webhook Sample.platform Sample.env Sample.calm
                      (Sample.post Sample.purchase_text)) Sample.fresh_world in
  snd run = Sample.fresh_world ∧ status (fst run) = 400 ∧ success (fst run) = Some false.
Proof.
  destruct (@webhook_rejects_unverified_request Sample.platform Sample.env Sample.calm
              (Sample.post Sample.purchase_text) Sample.fresh_world
              (or_introl eq_refl)) as (Hworld & Hstatus & _).
  split; [exact Hworld | apply Hstatus; reflexivity].
Defined.

(** A signature computed for another body is refused, and the body is
    not parsed: this one is no JSON the sample platform knows. *)
Example webhook_wrong_signature :
  serve (@revenuecat_webhook Sample.platform Sample.env Sample.calm
           {| method := "POST"; x_signature := Some "99dc"; text := "{tampered}" |})
        Sample.fresh_world
  = (json 400 (Failure "Webhook signature verification failed"), Sample.fresh_world).
Proof. vm_compute. reflexivity. Qed.

(** The method and the settings are checked before the signature. *)
Example webhook_get_without_signature :
  serve (@revenuecat_webhook Sample.platform Sample.env Sample.calm
           {| method := "GET"; x_signature := None; text := "" |}) Sample.fresh_world
  = (json 405 (Failure "Method not allowed. Use POST."), Sample.fresh_world).
Proof. vm_compute. reflexivity. Qed.

(** The row of the sample user before and after the signed purchase:
    free, where the claim says premium. *)
Lemma signed_purchase_event_is_rejected_witness :
  (∃ message,
     serve (@revenuecat_webhook Sample.platform Sample.env Sample.calm
              (Sample.signed Sample.purchase_text)) Sample.fresh_world
     = (json 400 (Failure message), Sample.fresh_world)) ∧
  subscription_columns (profiles Sample.fresh_world !! "user-1")
    = Some (status_free, tier_free, None) ∧
  customer_of Sample.fresh_world "user-1" = None.
Proof.
  split; [|split; reflexivity].
  exact (@signed_purchase_event_is_rejected Sample.platform Sample.env Sample.calm
           (Sample.signed Sample.purchase_text) Sample.fresh_world
           Sample.purchase_event sample_purchase_signed (or_introl eq_refl)).
Defined.

(** The premium row of the sample user stays premium, with the expiry
    it had, after the signed expiration. *)
Lemma signed_lapse_event_is_rejected_witness :
  (∃ message,
     serve (@revenuecat_webhook Scenario.platform Sample.env Sample.calm
              (Sample.signed Scenario.expiration_text)) Sample.linked_world
     = (json 400 (Failure message), Sample.linked_world)) ∧
  subscription_columns (profiles Sample.linked_world !! "user-1")
    = Some (status_premium, tier_premium, Some "2025-06-30T00:00:00.000Z").
Proof.
  split; [|reflexivity].
  exact (@signed_lapse_event_is_rejected Scenario.platform Sample.env Sample.calm
           (Sample.signed Scenario.expiration_text) Sample.linked_world
           Scenario.expiration_event scenario_expiration_signed
           (or_intror (or_introl eq_refl))).
Defined.

(** The stored expiry of the sample user survives the signed
    cancellation that carries none. *)
Lemma signed_event_without_expiry_keeps_stored_expiry_witness :
  let run := serve (@revenuecat_webhook Sample.platform Sample.env Sample.calm
                      (Sample.signed Sample.cancellation_text)) Sample.linked_world in
  status (fst run) = 400 ∧
  profiles (snd run) !! "user-1" = Some Sample.linked_row ∧
  subscription_expires_at Sample.linked_row = Some "2025-06-30T00:00:00.000Z".
Proof.
  destruct (@signed_event_without_expiry_keeps_stored_expiry Sample.platform Sample.env
              Sample.calm (Sample.signed Sample.cancellation_text) Sample.linked_world
              Sample.cancellation_event Sample.linked_row
              sample_cancellation_signed eq_refl eq_refl eq_refl) as [Hstatus Hrow].
  split; [exact Hstatus|]. split; [exact Hrow | reflexivity].
Defined.


(** ** 4.4 Subscription verifier *)

Lemma strict_eq_true (a : string) (b : option string) :
  strict_eq a b = true ↔ b = Some a.
Proof.
  destruct b as [s|]; simpl; [|split; discriminate].
  rewrite String.eqb_eq. split; congruence.
Qed.

(** The tier is premium exactly for the configured monthly price. *)
Lemma tier_of_price_premium (env : gmap string string) (priceId : string) :
  tier_of_price env priceId = tier_premium ↔
  Deno_env_get env "STRIPE_PRICE_ID_MONTHLY" = Some priceId.
Proof.
  unfold tier_of_price. rewrite <- strict_eq_true.
  destruct (strict_eq priceId _); split; congruence.
Qed.

Lemma tier_of_price_premium_plus (env : gmap string string) (priceId : string) :
  Deno_env_get env "STRIPE_PRICE_ID_MONTHLY" ≠ Some priceId →
  tier_of_price env priceId = tier_premium_plus.
Proof.
  intros Hne. unfold tier_of_price.
  destruct (strict_eq priceId _) eqn:Heq; [|reflexivity].
  by apply strict_eq_true in Heq.
Qed.

(** The session counts as completed as soon as one of the two fields
    says so. *)
Lemma payment_not_completed_false (session : Session) :
  payment_not_completed session = false ↔
  payment_status session = "paid" ∨ session_status session = Some "complete".
Proof.
  unfold payment_not_completed.
  rewrite andb_false_iff, !negb_false_iff, String.eqb_eq, strict_eq_true. tauto.
Qed.

Lemma payment_not_completed_true (session : Session) :
  payment_not_completed session = true ↔
  payment_status session ≠ "paid" ∧ session_status session ≠ Some "complete".
Proof.
  rewrite <- not_false_iff_true, payment_not_completed_false. tauto.
Qed.

Section VerifyFacts.
Context `{Platform}.

(** A well-formed request reaches the session retrieval; what the inner
    [try] block throws becomes the 500 of the inner [catch]. *)
Lemma verify_request_run (env : gmap string string) (o : Oracle) (req : Request)
    (sessionId userId : string) (w : World) :
  verify_request env req sessionId userId →
  serve (verify_subscription env o req) w =
    match verify_session env o sessionId userId w with
    | (Normal response, w') => (response, w')
    | (Throw _, w') => (json 500 (Failure "Failed to verify subscription status"), w')
    end.
Proof.
  intros (Hcfg & Hpost & Hsession & Huser & Hparse).
  unfold verifier_configured in Hcfg.
  apply andb_prop in Hcfg as [[Hkey Hurl]%andb_prop Hsrk].
  unfold serve, verify_subscription. rewrite Hpost, Hkey, Hurl, Hsrk. simpl.
  unfold try_catch at 1. unfold bind at 1. unfold lift at 1. rewrite Hparse.
  cbn [vr_sessionId vr_userId]. rewrite !truthy_nonempty by done. simpl.
  unfold try_catch, ret.
  by destruct (verify_session env o sessionId userId w) as [[response|e] w'].
Qed.

(** The branch of lines 122-138. *)
Lemma verify_unpaid_run (env : gmap string string) (o : Oracle) (req : Request)
    (w : World) (sessionId userId : string) (session : Session) :
  verify_request env req sessionId userId →
  sessions_retrieve o sessionId w = (Normal (Some session), w) →
  payment_not_completed session = true →
  serve (verify_subscription env o req) w =
    (json 200 (PaymentNotCompleted (session_status session) (payment_status session)), w).
Proof.
  intros Hrequest Hsession Hunpaid.
  rewrite (verify_request_run _ _ _ _ _ _ Hrequest).
  unfold verify_session, bind. by rewrite Hsession, Hunpaid.
Qed.

(** C1.  For every checkout session the provider returns whose payment
    is not completed (its payment status is not paid and its status is
    not complete), the verifier answers 200 with [success: false] and
    leaves the world, and with it every profile column, as it was. *)
Theorem unpaid_session_is_reported_not_applied
    (env : gmap string string) (o : Oracle) (req : Request) (w : World)
    (sessionId userId : string) (session : Session) :
  verify_request env req sessionId userId →
  sessions_retrieve o sessionId w = (Normal (Some session), w) →
  payment_status session ≠ "paid" →
  session_status session ≠ Some "complete" →
  status (fst (serve (verify_subscription env o req) w)) = 200 ∧
  success (fst (serve (verify_subscription env o req) w)) = Some false ∧
  snd (serve (verify_subscription env o req) w) = w.
Proof.
  intros Hrequest Hsession Hpaid Hcomplete.
  by rewrite (verify_unpaid_run _ _ _ _ _ _ _ Hrequest Hsession)
    by by apply payment_not_completed_true.
Qed.

(** C9.  For every completed session whose subscription the provider
    returns with a first item, the verifier writes tier premium
    exactly when the price id of that item is the configured monthly
    price id; every other price id, be it the yearly one or neither,
    is written as premium_plus. *)
Theorem verified_tier_follows_monthly_price
    (env : gmap string string) (o : Oracle) (req : Request) (w : World)
    (sessionId userId subscriptionId priceId expires : string)
    (session : Session) (subscription : Subscription) (more : list string) :
  verify_request env req sessionId userId →
  sessions_retrieve o sessionId w = (Normal (Some session), w) →
  payment_status session = "paid" ∨ session_status session = Some "complete" →
  session_subscription session = Some subscriptionId →
  subscriptionId ≠ "" →
  subscriptions_retrieve o subscriptionId w = (Normal subscription, w) →
  item_price_ids subscription = priceId :: more →
  period_end_iso subscription = Normal expires →
  update_fails o = false →
  ∃ tier w',
    serve (verify_subscription env o req) w = (json 200 (Verified tier expires), w') ∧
    (∀ row, profiles w !! userId = Some row →
       profiles w' !! userId =
         Some {| name := name row;
                 subscription_status := status_premium;
                 subscription_tier := tier;
                 subscription_expires_at := Some expires;
                 revenuecat_user_id := revenuecat_user_id row;
                 updated_at := now o |}) ∧
    (tier = tier_premium ↔
       Deno_env_get env "STRIPE_PRICE_ID_MONTHLY" = Some priceId) ∧
    (Deno_env_get env "STRIPE_PRICE_ID_MONTHLY" ≠ Some priceId →
       tier = tier_premium_plus).
Proof.
  intros Hrequest Hsession Hdone Hsub Hid Hsubscription Hitems Hexpires Hupdate.
  exists (tier_of_price env priceId). eexists.
  rewrite (verify_request_run _ _ _ _ _ _ Hrequest).
  unfold verify_session. unfold bind at 1. rewrite Hsession.
  apply payment_not_completed_false in Hdone as ->.
  rewrite Hsub, truthy_nonempty by done. simpl.
  unfold bind at 1. rewrite Hsubscription.
  unfold first_price_id. rewrite Hitems.
  unfold bind, lift, update_profile, ret. rewrite Hexpires, Hupdate.
  split; [reflexivity|]. simpl. split; [|split].
  - intros row Hrow. by rewrite lookup_alter_eq, Hrow.
  - apply tier_of_price_premium.
  - apply tier_of_price_premium_plus.
Qed.

(** A refused update after a completed session is a 500 that changes
    nothing. *)
Lemma verify_update_refused
    (env : gmap string string) (o : Oracle) (req : Request) (w : World)
    (sessionId userId subscriptionId priceId expires : string)
    (session : Session) (subscription : Subscription) (more : list string) :
  verify_request env req sessionId userId →
  sessions_retrieve o sessionId w = (Normal (Some session), w) →
  payment_not_completed session = false →
  session_subscription session = Some subscriptionId →
  subscriptionId ≠ "" →
  subscriptions_retrieve o subscriptionId w = (Normal subscription, w) →
  item_price_ids subscription = priceId :: more →
  period_end_iso subscription = Normal expires →
  update_fails o = true →
  serve (verify_subscription env o req) w =
    (json 500 (Failure "Failed to update user profile with subscription info"), w).
Proof.
  intros Hrequest Hsession Hdone Hsub Hid Hsubscription Hitems Hexpires Hupdate.
  rewrite (verify_request_run _ _ _ _ _ _ Hrequest).
  unfold verify_session. unfold bind at 1. rewrite Hsession, Hdone.
  rewrite Hsub, truthy_nonempty by done. simpl.
  unfold bind at 1. rewrite Hsubscription.
  unfold first_price_id. rewrite Hitems.
  unfold bind, lift, update_profile, ret. by rewrite Hexpires, Hupdate.
Qed.

End VerifyFacts.

(** *** The verifier on the sample data *)

Lemma sample_verify_request (body sessionId : string) :
  (body = Sample.verify_text ∧ sessionId = "cs_open") ∨
  (body = Sample.verify_paid_text ∧ sessionId = "cs_paid") →
  @verify_request Sample.platform Sample.env (Sample.post body) sessionId "user-1".
Proof. intros [[-> ->] | [-> ->]]; repeat split; done. Qed.

Lemma unpaid_session_is_reported_not_applied_witness :
  let run := serve (@verify_subscription Sample.platform Sample.env Sample.calm
                      (Sample.post Sample.verify_text)) Sample.fresh_world in
  status (fst run) = 200 ∧ success (fst run) = Some false ∧ snd run = Sample.fresh_world.
Proof.
  refine (@unpaid_session_is_reported_not_applied Sample.platform Sample.env Sample.calm
            (Sample.post Sample.verify_text) Sample.fresh_world "cs_open" "user-1"
            Sample.open_session
            (sample_verify_request _ _ (or_introl (conj eq_refl eq_refl)))
            eq_refl _ _); discriminate.
Defined.

Lemma verified_tier_follows_monthly_price_witness :
  ∃ w',
    serve (@verify_subscription Sample.platform Sample.env Sample.calm
             (Sample.post Sample.verify_paid_text)) Sample.fresh_world
      = (json 200 (Verified tier_premium "2025-07-31T00:00:00.000Z"), w') ∧
    (profiles w' !! "user-1") ≫= (λ row, Some (subscription_tier row)) = Some tier_premium.
Proof.
  destruct (@verified_tier_follows_monthly_price Sample.platform Sample.env Sample.calm
              (Sample.post Sample.verify_paid_text) Sample.fresh_world
              "cs_paid" "user-1" "sub_1" "price_monthly" "2025-07-31T00:00:00.000Z"
              Sample.paid_session Sample.monthly_subscription []
              (sample_verify_request _ _ (or_intror (conj eq_refl eq_refl)))
              eq_refl (or_introl eq_refl) eq_refl ltac:(discriminate) eq_refl eq_refl
              eq_refl eq_refl)
    as (tier & w' & Hrun & Hrow & Htier & _).
  assert (tier = tier_premium) as -> by (apply Htier; reflexivity).
  exists w'. split; [exact Hrun|].
  rewrite (Hrow Sample.fresh_row eq_refl). reflexivity.
Defined.

(** A price id that is neither configured one is written as premium_plus. *)
Example verify_unknown_price_is_premium_plus :
  tier_of_price Sample.env "price_lifetime" = tier_premium_plus.
Proof. vm_compute. reflexivity. Qed.

(** So is every price when no monthly price id is configured. *)
Example verify_unconfigured_monthly (priceId : string) :
  tier_of_price ∅ priceId = tier_premium_plus.
Proof. reflexivity. Qed.

(** A session whose status is complete is applied even while its
    payment status is not paid: the check of line 122 asks for both to
    fail. *)
Example complete_session_counts_as_paid :
  payment_not_completed
    {| session_id := "cs_trial"; session_url := None;
       session_status := Some "complete"; payment_status := "no_payment_required";
       session_subscription := Some "sub_1"; session_customer := Some "cus_1";
       session_price := "price_monthly"; trial_period_days := 7;
       session_metadata := []; success_url := ""; cancel_url := "" |} = false.
Proof. reflexivity. Qed.

(** The two cases of the [switch] one after the other, taken by
    themselves: the purchase of the yearly product, then a cancellation
    that carries no expiry. *)
Example purchase_then_cancellation :
  let after_purchase :=
    snd (@handle_event Sample.platform Sample.calm Sample.purchase_event
           Sample.fresh_world) in
  let after_cancellation :=
    snd (@handle_event Sample.platform Sample.calm Sample.cancellation_event
           after_purchase) in
  subscription_columns (profiles Sample.fresh_world !! "user-1")
    = Some (status_free, tier_free, None) ∧
  subscription_columns (profiles after_purchase !! "user-1")
    = Some (status_premium, tier_premium_plus, Some "2025-07-01T00:00:00.000Z") ∧
  subscription_columns (profiles after_cancellation !! "user-1")
    = Some (status_cancelled, tier_premium_plus, None).
Proof. repeat split; vm_compute; reflexivity. Qed.

(** ** The billing customer id is never cleared *)

(** The relation is a preorder, so it can be carried through a handler
    step by step. *)
Lemma no_customer_cleared_refl (w : World) : no_customer_cleared w w.
Proof. intros user_id row Hrow Hid. eauto. Qed.

Lemma no_customer_cleared_trans (w1 w2 w3 : World) :
  no_customer_cleared w1 w2 → no_customer_cleared w2 w3 → no_customer_cleared w1 w3.
Proof.
  intros H12 H23 user_id row Hrow Hid.
  destruct (H12 user_id row Hrow Hid) as (row2 & Hrow2 & Hid2). eauto.
Qed.

Lemma no_customer_cleared_same_profiles (w w' : World) :
  profiles w' = profiles w → no_customer_cleared w w'.
Proof. intros Heq user_id row Hrow Hid. rewrite Heq. eauto. Qed.

(** Altering one row with a patch that keeps the id clears nothing. *)
Lemma no_customer_cleared_alter (patch : Profile → Profile) (user_id : string) (w : World) :
  keeps_customer patch →
  no_customer_cleared w (with_profiles (alter patch user_id (profiles w)) w).
Proof.
  intros Hkeeps other row Hrow Hid. simpl.
  destruct (decide (user_id = other)) as [->|Hne].
  - rewrite lookup_alter_eq, Hrow. simpl. eauto.
  - rewrite lookup_alter_ne by done. eauto.
Qed.

(** None of the four patches removes the id. *)
Lemma purchase_patch_keeps tier expires userId updated :
  keeps_customer (purchase_patch tier expires userId updated).
Proof. intros row _. simpl. eauto. Qed.

Lemma lapse_patch_keeps st expires updated :
  keeps_customer (lapse_patch st expires updated).
Proof. intros row Hid. exact Hid. Qed.

Lemma verified_patch_keeps tier expires updated :
  keeps_customer (verified_patch tier expires updated).
Proof. intros row Hid. exact Hid. Qed.

Lemma customer_patch_keeps customerId : keeps_customer (customer_patch customerId).
Proof. intros row _. simpl. eauto. Qed.

Section Respects.
Context (R : World → World → Prop).
Context (R_refl : ∀ w, R w w) (R_trans : ∀ w1 w2 w3, R w1 w2 → R w2 w3 → R w1 w3).

Lemma respects_ret {A} (a : A) : respects R (ret a).
Proof. intros w. apply R_refl. Qed.

Lemma respects_throw {A} (message : string) : respects R (@throw A message).
Proof. intros w. apply R_refl. Qed.

Lemma respects_lift {A} (c : completion A) : respects R (lift c).
Proof. intros w. apply R_refl. Qed.

Lemma respects_bind {A B} (m : Eff A) (k : A → Eff B) :
  respects R m → (∀ a, respects R (k a)) → respects R (bind m k).
Proof.
  intros Hm Hk w. unfold bind. specialize (Hm w).
  destruct (m w) as [[a|e] w']; simpl in *; [|exact Hm].
  eapply R_trans; [exact Hm | apply Hk].
Qed.

Lemma respects_try_catch {A} (m : Eff A) (h : string → Eff A) :
  respects R m → (∀ e, respects R (h e)) → respects R (try_catch m h).
Proof.
  intros Hm Hh w. unfold try_catch. specialize (Hm w).
  destruct (m w) as [[a|e] w']; simpl in *; [exact Hm|].
  eapply R_trans; [exact Hm | apply Hh].
Qed.

(** A computation that leaves the world alone. *)
Lemma respects_reader {A} (m : Eff A) : (∀ w, snd (m w) = w) → respects R m.
Proof. intros Hm w. rewrite Hm. apply R_refl. Qed.

End Respects.

Create HintDb respects discriminated.

#[local] Hint Resolve no_customer_cleared_refl no_customer_cleared_alter
  purchase_patch_keeps lapse_patch_keeps verified_patch_keeps customer_patch_keeps
  : respects.

Section Primitives.

Lemma select_reads (o : Oracle) (user_id : string) (w : World) :
  snd (select_revenuecat_user_id o user_id w) = w.
Proof.
  unfold select_revenuecat_user_id.
  destruct (select_fails o); [reflexivity|]. by destruct (profiles w !! user_id).
Qed.

Lemma customers_retrieve_reads (o : Oracle) (id : string) (w : World) :
  snd (customers_retrieve o id w) = w.
Proof.
  unfold customers_retrieve.
  destruct (customers_retrieve_fails o); [reflexivity|]. by destruct (List.find _ _).
Qed.

Lemma sessions_retrieve_reads (o : Oracle) (id : string) (w : World) :
  snd (sessions_retrieve o id w) = w.
Proof.
  unfold sessions_retrieve.
  destruct (sessions_retrieve_fails o); [reflexivity|]. by destruct (List.find _ _).
Qed.

Lemma subscriptions_retrieve_reads (o : Oracle) (id : string) (w : World) :
  snd (subscriptions_retrieve o id w) = w.
Proof.
  unfold subscriptions_retrieve.
  destruct (subscriptions_retrieve_fails o); [reflexivity|].
  by destruct (subscriptions (stripe w) !! id).
Qed.

Lemma customers_create_profiles (o : Oracle) email name metadata (w : World) :
  profiles (snd (customers_create o email name metadata w)) = profiles w.
Proof. unfold customers_create. by destruct (customers_create_fails o). Qed.

Lemma sessions_create_profiles (o : Oracle) customer price trial metadata ok cancel
    (w : World) :
  profiles (snd (sessions_create o customer price trial metadata ok cancel w)) = profiles w.
Proof. unfold sessions_create. by destruct (sessions_create_fails o). Qed.

Lemma update_profile_keeps (o : Oracle) (patch : Profile → Profile) (user_id : string) :
  keeps_customer patch →
  respects no_customer_cleared (update_profile o patch user_id).
Proof.
  intros Hkeeps w. unfold update_profile. destruct (update_fails o); simpl.
  - apply no_customer_cleared_refl.
  - by apply no_customer_cleared_alter.
Qed.

End Primitives.

(** One step of a proof that a handler respects [no_customer_cleared]:
    follow the shape of the computation, then close the primitives. *)
Ltac respects_step :=
  lazymatch goal with
  | |- respects _ (bind _ _) =>
      apply (respects_bind _ no_customer_cleared_trans); [|intros ?]
  | |- respects _ (try_catch _ _) =>
      apply (respects_try_catch _ no_customer_cleared_trans); [|intros ?]
  | |- respects _ (ret _) => apply (respects_ret _ no_customer_cleared_refl)
  | |- respects _ (throw _) => apply (respects_throw _ no_customer_cleared_refl)
  | |- respects _ (lift _) => apply (respects_lift _ no_customer_cleared_refl)
  | |- respects _ (update_profile _ _ _) =>
      apply update_profile_keeps; auto with respects
  | |- respects _ (select_revenuecat_user_id _ _) =>
      apply (respects_reader _ no_customer_cleared_refl), select_reads
  | |- respects _ (customers_retrieve _ _) =>
      apply (respects_reader _ no_customer_cleared_refl), customers_retrieve_reads
  | |- respects _ (sessions_retrieve _ _) =>
      apply (respects_reader _ no_customer_cleared_refl), sessions_retrieve_reads
  | |- respects _ (subscriptions_retrieve _ _) =>
      apply (respects_reader _ no_customer_cleared_refl), subscriptions_retrieve_reads
  | |- respects _ (customers_create _ _ _ _) =>
      intros ?; apply no_customer_cleared_same_profiles, customers_create_profiles
  | |- respects _ (sessions_create _ _ _ _ _ _ _) =>
      intros ?; apply no_customer_cleared_same_profiles, sessions_create_profiles
  | |- respects _ (if ?b then _ else _) => destruct b
  | |- respects _ (match ?x with _ => _ end) => destruct x
  end.

Section NeverCleared.
Context `{Platform}.

Lemma handle_event_keeps (o : Oracle) (event : RevenueCatEvent) :
  respects no_customer_cleared (handle_event o event).
Proof. unfold handle_event. repeat respects_step. Qed.

Lemma revenuecat_webhook_keeps env o req :
  respects no_customer_cleared (revenuecat_webhook env o req).
Proof.
  unfold revenuecat_webhook. cbv zeta.
  repeat first [apply handle_event_keeps | respects_step].
Qed.

Lemma verify_subscription_keeps env o req :
  respects no_customer_cleared (verify_subscription env o req).
Proof. unfold verify_subscription, verify_session. cbv zeta. repeat respects_step. Qed.

Lemma create_checkout_session_keeps env o req :
  respects no_customer_cleared (create_checkout_session env o req).
Proof.
  unfold create_checkout_session, resolve_customer, customer_exists, open_checkout.
  cbv zeta. repeat respects_step.
Qed.

Lemma create_stripe_customer_keeps env o req :
  respects no_customer_cleared (create_stripe_customer env o req).
Proof. unfold create_stripe_customer. cbv zeta. repeat respects_step. Qed.

Lemma perform_keeps (op : Operation) (w : World) :
  no_customer_cleared w (perform w op).
Proof.
  assert (respects no_customer_cleared (endpoint op)) as Hop.
  { destruct op; simpl;
      auto using revenuecat_webhook_keeps, verify_subscription_keeps,
                 create_checkout_session_keeps, create_stripe_customer_keeps. }
  unfold perform, serve. specialize (Hop w).
  by destruct (endpoint op w) as [[response|e] w'].
Qed.

Lemma perform_all_keeps (ops : list Operation) (w : World) :
  no_customer_cleared w (perform_all ops w).
Proof.
  revert w. induction ops as [|op ops IH]; intros w; simpl.
  - apply no_customer_cleared_refl.
  - eapply no_customer_cleared_trans; [apply perform_keeps | apply IH].
Qed.

(** C6.  Whatever requests the four endpoints serve, in whatever order
    and with whatever failures of the table and the provider, a row
    whose billing customer id is set still exists afterwards and still
    has a billing customer id: the id is kept or overwritten, never
    set back to null. *)
Theorem customer_id_never_cleared
    (ops : list Operation) (w : World) (user_id : string) (row : Profile) :
  profiles w !! user_id = Some row →
  is_Some (revenuecat_user_id row) →
  ∃ row',
    profiles (perform_all ops w) !! user_id = Some row' ∧
    is_Some (revenuecat_user_id row').
Proof. intros Hrow Hid. exact (perform_all_keeps ops w user_id row Hrow Hid). Qed.

End NeverCleared.

Lemma customer_id_never_cleared_witness :
  ∃ row',
    profiles (@perform_all Sample.platform
                [WebhookDelivery Sample.env Sample.calm (Sample.signed Sample.cancellation_text);
                 CheckoutStart Sample.env Sample.write_refused (Sample.post Sample.checkout_text);
                 SignupTrigger Sample.env Sample.calm (Sample.post Sample.signup_text);
                 SubscriptionCheck Sample.env Sample.calm (Sample.post Sample.verify_paid_text);
                 WebhookDelivery Sample.env Sample.calm (Sample.signed Sample.purchase_text)]
                Sample.linked_world) !! "user-1" = Some row' ∧
    is_Some (revenuecat_user_id row').
Proof.
  exact (@customer_id_never_cleared Sample.platform _ Sample.linked_world "user-1"
           Sample.linked_row eq_refl (ex_intro _ "cus_1" eq_refl)).
Defined.

(** The purchase case of the [switch], taken by itself, overwrites the
    provider's customer id with the app user id: the column changes, it
    is not emptied. *)
Example purchase_overwrites_customer_id :
  customer_of Sample.linked_world "user-1" = Some "cus_1" ∧
  customer_of (snd (@handle_event Sample.platform Sample.calm Sample.purchase_event
                      Sample.linked_world))
    "user-1" = Some "user-1".
Proof. split; vm_compute; reflexivity. Qed.

(** The signup trigger returns early for a user who has an id: no
    customer is created and no row is written. *)
Example signup_trigger_keeps_existing_customer :
  serve (@create_stripe_customer Sample.platform Sample.env Sample.calm
           (Sample.post Sample.signup_text)) Sample.linked_world
  = (json 200 (CustomerLinked "User already has a Stripe customer ID" "cus_1"),
     Sample.linked_world).
Proof. vm_compute. reflexivity. Qed.

(** For a user without one it creates the customer and stores its id. *)
Example signup_trigger_links_customer :
  let run := serve (@create_stripe_customer Sample.platform Sample.env Sample.calm
                      (Sample.post Sample.signup_text)) Sample.fresh_world in
  fst run = json 200 (CustomerLinked "Stripe customer created and linked to user profile"
                        "cus_new") ∧
  customer_of (snd run) "user-1" = Some "cus_new".
Proof. split; vm_compute; reflexivity. Qed.

(** ** 4.2 Customer resolution at checkout *)

Section CheckoutFacts.
Context `{Platform}.

(** The stored id is known to the provider: it is the one to use, and
    nothing is created or written. *)
Lemma resolve_reuse (o : Oracle) (userId email : string) (name stored : option string)
    (w : World) (c : Customer) :
  truthy stored = true →
  customers_retrieve o (the_string stored) w = (Normal c, w) →
  resolve_customer o userId email name stored w = (Normal (inr (the_string stored)), w).
Proof.
  intros Hstored Hfound. unfold resolve_customer, customer_exists.
  rewrite Hstored. unfold bind at 1. unfold try_catch at 1. unfold bind at 1.
  by rewrite Hfound.
Qed.


(** Lines 218-281 add at most a session; they never throw. *)
Lemma open_checkout_run (env : gmap string string) (o : Oracle)
    (customerId priceId userId : string) (w : World) :
  ∃ response w',
    open_checkout env o customerId priceId userId w = (Normal response, w') ∧
    profiles w' = profiles w ∧
    customers (stripe w') = customers (stripe w) ∧
    (sessions_create_fails o = false →
       status response = 200 ∧
       ∃ s, sessions (stripe w') = (sessions (stripe w) ++ [s])%list ∧
            session_customer s = Some customerId ∧ session_price s = priceId ∧
            trial_period_days s = 7).
Proof.
  unfold open_checkout, try_catch, bind, sessions_create, ret.
  destruct (sessions_create_fails o); do 2 eexists;
    (split; [reflexivity|]); simpl; repeat split; try discriminate.
  eexists. repeat split.
Qed.

(** A well-formed request whose profile query does not fail reaches
    customer resolution with the id stored for the user. *)
Lemma checkout_request_run (env : gmap string string) (o : Oracle) (req : Request)
    (priceId userId email : string) (name : option string) (w : World) :
  checkout_request env req priceId userId email name →
  select_fails o = false →
  serve (create_checkout_session env o req) w =
    match resolve_customer o userId email name (customer_of w userId) w with
    | (Normal (inl response), w') => (response, w')
    | (Normal (inr customerId), w') =>
        match open_checkout env o customerId priceId userId w' with
        | (Normal response, w'') => (response, w'')
        | (Throw message, w'') => (json 500 (Failure message), w'')
        end
    | (Throw message, w') => (json 500 (Failure message), w')
    end.
Proof.
  intros (Henv & Hpost & Hprice & Huser & Hemail & Hparse & Hallowed) Hselect.
  unfold serve, create_checkout_session. rewrite Hpost, Henv. simpl.
  unfold try_catch at 1. unfold bind at 1. unfold lift at 1. rewrite Hparse.
  cbn [cr_priceId cr_userId cr_email cr_name].
  rewrite !truthy_nonempty by done. simpl.
  assert (negb (strict_eq priceId (Deno_env_get env "STRIPE_PRICE_ID_MONTHLY"))
          && negb (strict_eq priceId (Deno_env_get env "STRIPE_PRICE_ID_YEARLY")) = false)
    as -> by (destruct Hallowed as [-> | ->]; [reflexivity | apply andb_false_r]).
  unfold bind at 1. unfold select_revenuecat_user_id, customer_of. rewrite Hselect.
  destruct (profiles w !! userId) as [row|]; simpl;
    unfold bind at 1;
    destruct (resolve_customer _ _ _ _ _ _) as [[[response|customerId]|message] w'];
    try reflexivity;
    unfold ret; by destruct (open_checkout _ _ _ _ _ _) as [[response|message] w''].
Qed.

End CheckoutFacts.

Section CheckoutProperties.
Context `{Platform}.


End CheckoutProperties.

(** *** Checkout on the sample data *)

Lemma sample_checkout_request :
  @checkout_request Sample.platform Sample.env (Sample.post Sample.checkout_text)
    "price_monthly" "user-1" "ada@example.org" None.
Proof. repeat split; try done. left. vm_compute. reflexivity. Qed.


(** The stored id of a linked user is reused: the provider keeps its one
    customer. *)
Example checkout_reuses_customer :
  let run := serve (@create_checkout_session Sample.platform Sample.env Sample.calm
                      (Sample.post Sample.checkout_text)) Sample.linked_world in
  status (fst run) = 200 ∧
  customers (stripe (snd run)) = [Sample.cus_1] ∧
  customer_of (snd run) "user-1" = Some "cus_1".
Proof. repeat split; vm_compute; reflexivity. Qed.


(** * Further properties of the handlers *)

(** ** The hex encoding of the signature *)

(** X1.  The hex encoding of the computed MAC loses nothing: it reads
    back to the bytes it was made of, so two MACs have the same encoding
    only when they are the same bytes. *)
Theorem signature_hex_reads_back (mac other : list byte) :
  unhex (hex mac) = Some mac ∧ (hex mac = hex other ↔ mac = other).
Proof.
  split; [apply unhex_hex|]. split; [apply hex_inj | by intros ->].
Qed.

(** ** The webhook on every request *)

Section WebhookEffect.
Context `{Platform}.

(** No run of the webhook changes the world. *)
Lemma webhook_never_writes (env : gmap string string) (o : Oracle) (req : Request)
    (w : World) :
  snd (serve (revenuecat_webhook env o req) w) = w.
Proof. by rewrite webhook_run. Qed.

(** X5.  The webhook writes only when it acknowledges: every answer other
    than 200 leaves the world exactly as it was, so a delivery that is
    retried starts from the same state. *)
Theorem webhook_failure_writes_nothing
    (env : gmap string string) (o : Oracle) (req : Request) (w : World) :
  status (fst (serve (revenuecat_webhook env o req) w)) ≠ 200 →
  snd (serve (revenuecat_webhook env o req) w) = w.
Proof.
  intros _. apply webhook_never_writes.
Qed.

(** X6.  On every request the webhook leaves the provider's objects
    alone, creates and deletes no profile row, and can change only the
    row of the app user id that the body names. *)
Theorem webhook_touches_one_row
    (env : gmap string string) (o : Oracle) (req : Request) (w : World) :
  let w' := snd (serve (revenuecat_webhook env o req) w) in
  same_provider w w' ∧ same_users w w' ∧
  (∀ e, JSON_parse_event (text req) = Throw e → w' = w) ∧
  (∀ event other,
     JSON_parse_event (text req) = Normal event →
     other ≠ app_user_id event →
     profiles w' !! other = profiles w !! other).
Proof.
  cbv zeta. unfold same_provider, same_users.
  rewrite webhook_never_writes. by repeat split.
Qed.

End WebhookEffect.

Lemma webhook_failure_writes_nothing_witness :
  fst (serve (@revenuecat_webhook Sample.platform Sample.env Sample.calm
                {| method := "POST"; x_signature := Some "99dc"; text := "{tampered}" |})
         Sample.linked_world)
    = json 400 (Failure "Webhook signature verification failed") ∧
  snd (serve (@revenuecat_webhook Sample.platform Sample.env Sample.calm
                {| method := "POST"; x_signature := Some "99dc"; text := "{tampered}" |})
         Sample.linked_world)
    = Sample.linked_world.
Proof.
  split; [vm_compute; reflexivity|].
  apply (@webhook_failure_writes_nothing Sample.platform). vm_compute. discriminate.
Defined.

(** ** The response envelope of the four endpoints *)

Section Returns.
Context {A : Type} (Q : A → Prop).

Lemma returns_ret (a : A) : Q a → returns Q (ret a).
Proof. intros Ha w. exact Ha. Qed.

Lemma returns_throw (message : string) : returns Q (throw message).
Proof. intros w. exact I. Qed.

Lemma returns_bind {B} (P : B → Prop) (m : Eff B) (k : B → Eff A) :
  returns P m → (∀ b, P b → returns Q (k b)) → returns Q (bind m k).
Proof.
  intros Hm Hk w. unfold bind. specialize (Hm w).
  destruct (m w) as [[b|e] w']; simpl in *; [|exact I]. apply (Hk b Hm w').
Qed.

Lemma returns_bind_any {B} (m : Eff B) (k : B → Eff A) :
  (∀ b, returns Q (k b)) → returns Q (bind m k).
Proof.
  intros Hk. apply (returns_bind (fun _ => True)); [|auto].
  intros w. by destruct (fst (m w)).
Qed.

Lemma returns_try_catch (m : Eff A) (h : string → Eff A) :
  returns Q m → (∀ e, returns Q (h e)) → returns Q (try_catch m h).
Proof.
  intros Hm Hh w. unfold try_catch. specialize (Hm w).
  destruct (m w) as [[a|e] w']; simpl in *; [exact Hm | apply Hh].
Qed.

End Returns.

(** A [try] whose [catch] returns a response lets nothing escape. *)
Lemma try_catch_answers {A} (m : Eff A) (f : string → A) (w : World) :
  ∃ a w', try_catch m (fun e => ret (f e)) w = (Normal a, w').
Proof. unfold try_catch, ret. destruct (m w) as [[a|e] w']; eauto. Qed.

(** One step of a proof that every response of a handler satisfies a
    predicate: follow the computation, then check the response built. *)
Ltac returns_step :=
  lazymatch goal with
  | |- returns _ (bind _ _) => apply returns_bind_any; intros ?
  | |- returns _ (try_catch _ _) => apply returns_try_catch; [|intros ?]
  | |- returns _ (ret _) => apply returns_ret
  | |- returns _ (throw _) => apply returns_throw
  | |- returns _ (if ?b then _ else _) => destruct b
  | |- returns _ (match ?x with _ => _ end) => destruct x
  end.

Section Envelope.
Context `{Platform}.

(** The only response customer resolution itself returns is the 500 of
    a refused creation. *)
Lemma resolve_customer_returns (o : Oracle) (userId email : string)
    (name customerId : option string) :
  returns (fun resolved =>
             ∀ response, resolved = inl response →
               response = json 500 (Failure "Failed to create Stripe customer"))
          (resolve_customer o userId email name customerId).
Proof.
  unfold resolve_customer. repeat returns_step; intros response; congruence.
Qed.

Lemma endpoint_returns (op : Operation) :
  returns (fun r => status_matches_body r ∧
                    (∀ st paid, body r = PaymentNotCompleted st paid →
                       ∃ env o req, op = SubscriptionCheck env o req))
          (endpoint op).
Proof.
  destruct op as [env o req|env o req|env o req|env o req]; simpl.
  - unfold revenuecat_webhook. cbv zeta.
    repeat returns_step; (split; [unfold status_matches_body; simpl; auto | discriminate]).
  - unfold verify_subscription, verify_session. cbv zeta.
    repeat returns_step;
      (split; [unfold status_matches_body; simpl; auto | intros; eauto]).
  - unfold create_checkout_session, open_checkout. cbv zeta.
    repeat first
      [ lazymatch goal with
        | |- returns _ (bind (resolve_customer _ _ _ _ _) _) =>
            eapply returns_bind;
            [apply resolve_customer_returns
            |intros [response|customerId] Hresolved;
             [rewrite (Hresolved response eq_refl)|]]
        end
      | returns_step ];
      (split; [unfold status_matches_body; simpl; auto | discriminate]).
  - unfold create_stripe_customer. cbv zeta.
    repeat returns_step; (split; [unfold status_matches_body; simpl; auto | discriminate]).
Qed.

Lemma endpoint_run (op : Operation) (w : World) :
  ∃ response, endpoint op w = (Normal response, perform w op).
Proof.
  unfold perform, serve.
  assert (∃ response w', endpoint op w = (Normal response, w')) as (r & w' & ->);
    [|by exists r].
  destruct op as [env o req|env o req|env o req|env o req]; simpl.
  - unfold revenuecat_webhook. cbv zeta.
    destruct (String.eqb _ _); [by do 2 eexists | apply try_catch_answers].
  - unfold verify_subscription. cbv zeta.
    destruct (String.eqb _ _); [by do 2 eexists | apply try_catch_answers].
  - unfold create_checkout_session. cbv zeta.
    destruct (String.eqb _ _); [by do 2 eexists | apply try_catch_answers].
  - unfold create_stripe_customer. cbv zeta.
    destruct (String.eqb _ _); [by do 2 eexists | apply try_catch_answers].
Qed.

(** X8.  No request makes an endpoint throw: every exception of the
    platform, the table client or the provider is caught inside the
    handler and answered with a response, so [Deno.serve] never has to
    answer for the handler. *)
Theorem endpoint_always_answers (op : Operation) (w : World) :
  ∃ response w',
    endpoint op w = (Normal response, w') ∧
    serve (endpoint op) w = (response, w') ∧
    (body response = NoBody → method (request_of op) = "OPTIONS").
Proof.
  destruct (endpoint_run op w) as [response Hrun].
  exists response, (perform w op). split; [exact Hrun|].
  split; [unfold serve; by rewrite Hrun|].
  intros Hbody. destruct (String.eqb (method (request_of op)) "OPTIONS") eqn:Hmethod;
    [by apply String.eqb_eq|]. exfalso.
  assert (returns (fun r => body r ≠ NoBody) (endpoint op)) as Hreturns.
  { destruct op as [env o req|env o req|env o req|env o req]; simpl in *.
    - unfold revenuecat_webhook. cbv zeta. rewrite Hmethod.
      repeat returns_step; discriminate.
    - unfold verify_subscription, verify_session. cbv zeta. rewrite Hmethod.
      repeat returns_step; discriminate.
    - unfold create_checkout_session, open_checkout. cbv zeta. rewrite Hmethod.
      repeat first
        [ lazymatch goal with
          | |- returns _ (bind (resolve_customer _ _ _ _ _) _) =>
              eapply returns_bind;
              [apply resolve_customer_returns
              |intros [response'|customerId] Hresolved;
               [rewrite (Hresolved response' eq_refl)|]]
          end
        | returns_step ]; discriminate.
    - unfold create_stripe_customer. cbv zeta. rewrite Hmethod.
      repeat returns_step; discriminate. }
  specialize (Hreturns w). rewrite Hrun in Hreturns. by apply Hreturns.
Qed.

(** X9.  The status code of every response agrees with its body: a body
    with [success: false] and an error comes with 400, 405 or 500, every
    other body with 200; and the one answer that is 200 with
    [success: false], "Payment not completed", is given by the
    subscription verifier only. *)
Theorem status_agrees_with_success (op : Operation) (w : World) :
  let response := fst (serve (endpoint op) w) in
  status_matches_body response ∧
  (success response = Some true → status response = 200) ∧
  (status response = 200 → success response = Some false →
     ∃ env o req, op = SubscriptionCheck env o req).
Proof.
  cbv zeta. pose proof (endpoint_returns op w) as Hreturns. unfold serve.
  destruct (endpoint_run op w) as [response Hrun]. rewrite Hrun in *. simpl in *.
  destruct Hreturns as [Hstatus Honly]. split; [exact Hstatus|].
  unfold status_matches_body, success in *.
  destruct (body response) eqn:Hbody; split; try done; try (intros; lia).
  intros _ _. eauto.
Qed.

End Envelope.

(** ** What the handlers leave alone *)

(** Following a computation for a relation given by its reflexivity and
    transitivity; the writes and creations are closed from the context. *)
Ltac respects_walk Hrefl Htrans :=
  repeat lazymatch goal with
  | |- respects _ (bind _ _) => apply (respects_bind _ Htrans); [|intros ?]
  | |- respects _ (try_catch _ _) => apply (respects_try_catch _ Htrans); [|intros ?]
  | |- respects _ (ret _) => apply (respects_ret _ Hrefl)
  | |- respects _ (throw _) => apply (respects_throw _ Hrefl)
  | |- respects _ (lift _) => apply (respects_lift _ Hrefl)
  | |- respects _ (select_revenuecat_user_id _ _) =>
      apply (respects_reader _ Hrefl), select_reads
  | |- respects _ (customers_retrieve _ _) =>
      apply (respects_reader _ Hrefl), customers_retrieve_reads
  | |- respects _ (sessions_retrieve _ _) =>
      apply (respects_reader _ Hrefl), sessions_retrieve_reads
  | |- respects _ (subscriptions_retrieve _ _) =>
      apply (respects_reader _ Hrefl), subscriptions_retrieve_reads
  | |- respects _ (update_profile _ _ _) => solve [auto]
  | |- respects _ (customers_create _ _ _ _) => solve [auto]
  | |- respects _ (sessions_create _ _ _ _ _ _ _) => solve [auto]
  | |- respects _ (if ?b then _ else _) => destruct b
  | |- respects _ (match ?x with _ => _ end) => destruct x
  end.

Section Frames.
Context `{Platform}.
Context (R : World → World → Prop).
Context (R_refl : ∀ w, R w w) (R_trans : ∀ w1 w2 w3, R w1 w2 → R w2 w3 → R w1 w3).

Lemma verify_subscription_respects (env : gmap string string) (o : Oracle) (req : Request) :
  (∀ tier expires updated user_id,
     respects R (update_profile o (verified_patch tier expires updated) user_id)) →
  respects R (verify_subscription env o req).
Proof.
  intros Hupdate. unfold verify_subscription, verify_session. cbv zeta.
  respects_walk R_refl R_trans.
Qed.

Lemma create_checkout_session_respects (env : gmap string string) (o : Oracle)
    (req : Request) :
  (∀ customerId user_id, respects R (update_profile o (customer_patch customerId) user_id)) →
  (∀ email name metadata, respects R (customers_create o email name metadata)) →
  (∀ customer price trial metadata ok cancel,
     respects R (sessions_create o customer price trial metadata ok cancel)) →
  respects R (create_checkout_session env o req).
Proof.
  intros Hupdate Hcustomer Hsession.
  unfold create_checkout_session, resolve_customer, customer_exists, open_checkout.
  cbv zeta. respects_walk R_refl R_trans.
Qed.

Lemma create_stripe_customer_respects (env : gmap string string) (o : Oracle)
    (req : Request) :
  (∀ customerId user_id, respects R (update_profile o (customer_patch customerId) user_id)) →
  (∀ email name metadata, respects R (customers_create o email name metadata)) →
  respects R (create_stripe_customer env o req).
Proof.
  intros Hupdate Hcustomer. unfold create_stripe_customer. cbv zeta.
  respects_walk R_refl R_trans.
Qed.

End Frames.

(** The four relations are preorders, and each is kept by the writes that
    do not touch what it watches. *)
Lemma same_users_update (o : Oracle) (patch : Profile → Profile) (user_id : string) :
  respects same_users (update_profile o patch user_id).
Proof.
  intros w. unfold update_profile, same_users.
  destruct (update_fails o); [done|]. apply dom_alter_L.
Qed.

Lemma same_provider_update (o : Oracle) (patch : Profile → Profile) (user_id : string) :
  respects same_provider (update_profile o patch user_id).
Proof. intros w. unfold update_profile. by destruct (update_fails o). Qed.

Lemma same_customer_ids_update (o : Oracle) (patch : Profile → Profile) (user_id : string) :
  (∀ row, revenuecat_user_id (patch row) = revenuecat_user_id row) →
  respects same_customer_ids (update_profile o patch user_id).
Proof.
  intros Hpatch w other. unfold update_profile, customer_of.
  destruct (update_fails o); [done|]. simpl.
  destruct (decide (user_id = other)) as [->|Hne].
  - rewrite lookup_alter_eq. destruct (profiles w !! other); simpl; auto.
  - by rewrite lookup_alter_ne.
Qed.

Lemma same_subscriptions_update (o : Oracle) (patch : Profile → Profile) (user_id : string) :
  (∀ row, subscription_columns (Some (patch row)) = subscription_columns (Some row)) →
  respects same_subscriptions (update_profile o patch user_id).
Proof.
  intros Hpatch w other. unfold update_profile.
  destruct (update_fails o); [done|]. simpl.
  destruct (decide (user_id = other)) as [->|Hne].
  - rewrite lookup_alter_eq. destruct (profiles w !! other); simpl; auto.
    apply Hpatch.
  - by rewrite lookup_alter_ne.
Qed.

Lemma same_subscriptions_profiles (w w' : World) :
  profiles w' = profiles w → same_subscriptions w w'.
Proof. intros Heq user_id. by rewrite Heq. Qed.

Lemma same_users_profiles (w w' : World) : profiles w' = profiles w → same_users w w'.
Proof. intros Heq. unfold same_users. by rewrite Heq. Qed.

Section FrameProperties.
Context `{Platform}.

(** X10.  On every request the subscription verifier leaves the
    provider's objects alone, creates and deletes no profile row, and
    never changes the billing customer id of any user. *)
Theorem verifier_leaves_customer_ids
    (env : gmap string string) (o : Oracle) (req : Request) (w : World) :
  let w' := snd (serve (verify_subscription env o req) w) in
  same_provider w w' ∧ same_users w w' ∧ same_customer_ids w w'.
Proof.
  cbv zeta.
  assert (∀ R, (∀ w0, R w0 w0) → (∀ w1 w2 w3, R w1 w2 → R w2 w3 → R w1 w3) →
               (∀ tier expires updated user_id,
                  respects R (update_profile o (verified_patch tier expires updated) user_id)) →
               R w (snd (serve (verify_subscription env o req) w))) as Hframed.
  { intros R Hrefl Htrans Hupdate.
    pose proof (verify_subscription_respects R Hrefl Htrans env o req Hupdate w) as Hrun.
    unfold serve. by destruct (verify_subscription env o req w) as [[r|e] w']. }
  repeat split.
  - apply Hframed; unfold same_provider; [done|congruence|].
    intros. apply same_provider_update.
  - apply Hframed; unfold same_users; [done|congruence|].
    intros. apply same_users_update.
  - apply Hframed; unfold same_customer_ids; [done|congruence|].
    intros. by apply same_customer_ids_update.
Qed.

(** X11.  Starting a checkout or running the signup trigger never
    changes the subscription status, tier or expiry of any user, and
    creates and deletes no profile row: only a payment event or a
    verification can make a user premium. *)
Theorem checkout_and_signup_leave_subscriptions
    (env : gmap string string) (o : Oracle) (req : Request) (w : World) :
  let checked_out := snd (serve (create_checkout_session env o req) w) in
  let signed_up := snd (serve (create_stripe_customer env o req) w) in
  (same_subscriptions w checked_out ∧ same_users w checked_out) ∧
  (same_subscriptions w signed_up ∧ same_users w signed_up).
Proof.
  cbv zeta.
  assert (∀ R, (∀ w0, R w0 w0) → (∀ w1 w2 w3, R w1 w2 → R w2 w3 → R w1 w3) →
               (∀ customerId user_id,
                  respects R (update_profile o (customer_patch customerId) user_id)) →
               (∀ w0 w1, profiles w1 = profiles w0 → R w0 w1) →
               R w (snd (serve (create_checkout_session env o req) w)) ∧
               R w (snd (serve (create_stripe_customer env o req) w))) as Hframed.
  { intros R Hrefl Htrans Hupdate Hprofiles.
    assert (∀ email name metadata, respects R (customers_create o email name metadata))
      as Hcustomer by (intros ??? w0; apply Hprofiles, customers_create_profiles).
    assert (∀ customer price trial metadata ok cancel,
              respects R (sessions_create o customer price trial metadata ok cancel))
      as Hsession by (intros ?????? w0; apply Hprofiles, sessions_create_profiles).
    pose proof (create_checkout_session_respects R Hrefl Htrans env o req
                  Hupdate Hcustomer Hsession w) as Hcheckout.
    pose proof (create_stripe_customer_respects R Hrefl Htrans env o req
                  Hupdate Hcustomer w) as Hsignup.
    unfold serve.
    destruct (create_checkout_session env o req w) as [[r|e] w'];
      destruct (create_stripe_customer env o req w) as [[r'|e'] w'']; by split. }
  destruct (Hframed same_subscriptions) as [Ha Hb].
  { done. } { intros w1 w2 w3 H12 H23 u. by rewrite H23. }
  { intros. by apply same_subscriptions_update. } { apply same_subscriptions_profiles. }
  destruct (Hframed same_users) as [Hc Hd].
  { done. } { unfold same_users. congruence. }
  { intros. apply same_users_update. } { apply same_users_profiles. }
  done.
Qed.

End FrameProperties.

(** ** The subscription verifier on every request *)

(** Closing a branch of a run in which nothing was written. *)
Ltac unchanged :=
  do 2 eexists; (split; [reflexivity|]); left; split; [discriminate | reflexivity].

Section VerifierEffect.
Context `{Platform}.

(** Every run of the verifier either leaves the world as it was without
    reporting success, or reports the tier and expiry it has just written
    to the row of the user id in the request. *)
Lemma verifier_effect (env : gmap string string) (o : Oracle) (req : Request) (w : World) :
  ∃ response w',
    serve (verify_subscription env o req) w = (response, w') ∧
    ((success response ≠ Some true ∧ w' = w) ∨
     (∃ requestData tier expires,
        json_verify (text req) = Normal requestData ∧
        truthy (vr_userId requestData) = true ∧
        response = json 200 (Verified tier expires) ∧
        w' = with_profiles
               (alter (verified_patch tier expires (now o))
                  (the_string (vr_userId requestData)) (profiles w)) w)).
Proof.
  unfold serve, verify_subscription, verify_session, try_catch, bind, lift, ret,
    sessions_retrieve, subscriptions_retrieve, update_profile.
  destruct (String.eqb (method req) "OPTIONS"); [unchanged|].
  destruct (truthy (Deno_env_get env "STRIPE_SECRET_KEY")); [|unchanged].
  destruct (truthy (Deno_env_get env "SUPABASE_URL")); [|unchanged].
  destruct (truthy (Deno_env_get env "SUPABASE_SERVICE_ROLE_KEY")); [|unchanged].
  destruct (String.eqb (method req) "POST"); [|unchanged]. cbn [negb orb].
  destruct (json_verify (text req)) as [requestData|e] eqn:Hparse; [|unchanged].
  destruct (truthy (vr_sessionId requestData)); [|unchanged].
  destruct (truthy (vr_userId requestData)) eqn:Huser; [|unchanged]. cbn [negb orb].
  destruct (sessions_retrieve_fails o); [unchanged|].
  destruct (List.find _ _) as [session|]; [|unchanged].
  destruct (payment_not_completed session); [unchanged|].
  destruct (truthy (session_subscription session)); [|unchanged]. cbn [negb].
  destruct (subscriptions_retrieve_fails o); [unchanged|].
  destruct (subscriptions (stripe w) !! _) as [subscription|]; [|unchanged].
  destruct (first_price_id subscription) as [priceId|e]; [|unchanged].
  destruct (period_end_iso subscription) as [expires|e]; [|unchanged].
  destruct (update_fails o); [unchanged|].
  do 2 eexists. split; [reflexivity|]. right.
  by exists requestData, (tier_of_price env priceId), expires.
Qed.

(** X12.  The verifier writes only when it reports success: every answer
    without [success: true] (input errors, a session that is not found or
    not paid, a missing or item-less subscription, a refused update)
    leaves the world exactly as it was. *)
Theorem verifier_failure_writes_nothing
    (env : gmap string string) (o : Oracle) (req : Request) (w : World) :
  success (fst (serve (verify_subscription env o req) w)) ≠ Some true →
  snd (serve (verify_subscription env o req) w) = w.
Proof.
  destruct (verifier_effect env o req w) as (response & w' & -> & Heffect). simpl.
  intros Hfailed.
  destruct Heffect as [[_ Hsame] | (requestData & tier & expires & _ & _ & -> & _)];
    [done|]. by destruct Hfailed.
Qed.

(** X13.  A success response tells the truth about the table: the tier
    and expiry in the body are the ones now stored, with status premium,
    in the row of the user id the request names, whatever that row held
    before. *)
Theorem verified_response_reports_the_row
    (env : gmap string string) (o : Oracle) (req : Request) (w : World)
    (tier : SubscriptionTier) (expires : string) :
  fst (serve (verify_subscription env o req) w) = json 200 (Verified tier expires) →
  ∃ requestData userId,
    json_verify (text req) = Normal requestData ∧
    vr_userId requestData = Some userId ∧
    ∀ row, profiles w !! userId = Some row →
      subscription_columns
        (profiles (snd (serve (verify_subscription env o req) w)) !! userId)
      = Some (status_premium, tier, Some expires).
Proof.
  destruct (verifier_effect env o req w) as (response & w' & -> & Heffect). simpl.
  intros ->.
  destruct Heffect
    as [[Hfailed _] | (requestData & tier' & expires' & Hparse & Huser & Hresponse & ->)].
  { by destruct Hfailed. }
  injection Hresponse as -> ->.
  destruct (vr_userId requestData) as [userId|] eqn:Hid; [|discriminate].
  exists requestData, userId. repeat split; [done..|].
  intros row Hrow. simpl. by rewrite lookup_alter_eq, Hrow.
Qed.

End VerifierEffect.

Lemma verifier_failure_writes_nothing_witness :
  snd (serve (@verify_subscription Sample.platform Sample.env Sample.write_refused
                (Sample.post Sample.verify_paid_text)) Sample.fresh_world)
  = Sample.fresh_world.
Proof.
  apply (@verifier_failure_writes_nothing Sample.platform). vm_compute. discriminate.
Defined.

Lemma verified_response_reports_the_row_witness :
  ∃ requestData userId,
    @json_verify Sample.platform Sample.verify_paid_text = Normal requestData ∧
    vr_userId requestData = Some userId ∧
    ∀ row, profiles Sample.linked_world !! userId = Some row →
      subscription_columns
        (profiles (snd (serve (@verify_subscription Sample.platform Sample.env Sample.calm
                                 (Sample.post Sample.verify_paid_text))
                          Sample.linked_world)) !! userId)
      = Some (status_premium, tier_premium, Some "2025-07-31T00:00:00.000Z").
Proof.
  apply (@verified_response_reports_the_row Sample.platform Sample.env Sample.calm
           (Sample.post Sample.verify_paid_text) Sample.linked_world).
  vm_compute. reflexivity.
Defined.

(** ** Checkout on every request *)

(** Splitting a fully unfolded run on the next test it makes. *)
Ltac next_case :=
  cbv beta iota zeta;
  cbn [negb orb andb is_hard_error is_PGRST116 stored_customer_id];
  match goal with
  | |- context [if ?b then _ else _] =>
      lazymatch b with
      | context [if _ then _ else _] => fail
      | context [match _ with _ => _ end] => fail
      | _ => destruct b eqn:?
      end
  | |- context [match ?x with _ => _ end] =>
      lazymatch x with
      | context [if _ then _ else _] => fail
      | context [match _ with _ => _ end] => fail
      | _ => destruct x eqn:?
      end
  end.

Lemma find_customer_held (id : string) (cs : list Customer) (c : Customer) :
  List.find (has_customer_id id) cs = Some c → c ∈ cs ∧ customer_id c = id.
Proof.
  intros [Hin Hid]%find_some. split; [by apply list_elem_of_In|].
  by apply String.eqb_eq.
Qed.

Section CheckoutEffect.
Context `{Platform}.

(** Every run of the checkout endpoint adds at most one customer and at
    most one session; it reports success exactly when it has added the
    session, and then the session is for a customer the provider holds. *)
Lemma checkout_effect (env : gmap string string) (o : Oracle) (req : Request) (w : World) :
  ∃ response w',
    serve (create_checkout_session env o req) w = (response, w') ∧
    (customers (stripe w') = customers (stripe w) ∨
     ∃ c, customers (stripe w') = (customers (stripe w) ++ [c])%list) ∧
    ((success response ≠ Some true ∧ sessions (stripe w') = sessions (stripe w)) ∨
     (∃ requestData customerId session,
        json_checkout (text req) = Normal requestData ∧
        sessions (stripe w') = (sessions (stripe w) ++ [session])%list ∧
        response = json 200 (CheckoutCreated (session_url session) (session_id session)) ∧
        session_customer session = Some customerId ∧
        session_price session = the_string (cr_priceId requestData) ∧
        (strict_eq (session_price session) (Deno_env_get env "STRIPE_PRICE_ID_MONTHLY") = true ∨
         strict_eq (session_price session) (Deno_env_get env "STRIPE_PRICE_ID_YEARLY") = true) ∧
        trial_period_days session = 7 ∧
        session_metadata session = [("userId", the_string (cr_userId requestData))] ∧
        provider_has w' customerId ∧
        (update_fails o = false →
         is_Some (profiles w !! the_string (cr_userId requestData)) →
         customer_of w' (the_string (cr_userId requestData)) = Some customerId ∧
         (customerId = new_customer_id o ∨
          (customerId ≠ "" ∧ customer_of w (the_string (cr_userId requestData))
                             = Some customerId))))).
Proof.
  unfold serve, create_checkout_session, resolve_customer, customer_exists, open_checkout,
    try_catch, bind, lift, ret, select_revenuecat_user_id, customers_retrieve,
    customers_create, update_profile, sessions_create.
  repeat next_case.
  all: do 2 eexists; (split; [reflexivity|]); cbn.
  all: split; [first [left; reflexivity | right; eexists; reflexivity]|].
  all: first [left; split; [discriminate | reflexivity] | right].
  all: match goal with Hparse : json_checkout _ = Normal ?a |- _ => exists a end.
  all: do 2 eexists; repeat (split; [reflexivity|]).
  all: split;
    [match goal with
     | Hprice : negb _ && negb _ = false |- _ =>
         apply andb_false_iff in Hprice as [Hprice%negb_false_iff | Hprice%negb_false_iff];
         [left | right]; exact Hprice
     end|].
  all: repeat (split; [reflexivity|]).
  all: split;
    [unfold provider_has; cbn;
     first
       [ eexists; split;
         [apply elem_of_app; right; apply list_elem_of_singleton; reflexivity | reflexivity]
       | match goal with
         | Hfound : List.find _ _ = Some ?c |- _ =>
             apply find_customer_held in Hfound as [Hheld Hid]; by exists c
         end ]
    |].
  all: intros Hupdate [row Hrow]; try discriminate.
  all: unfold customer_of in *; cbn.
  all: try (rewrite lookup_alter_eq;
            match goal with Hstored : profiles _ !! _ = Some _ |- _ => rewrite Hstored end;
            cbn; split; [reflexivity | by left]).
  all: match goal with
       | Hstored : truthy (revenuecat_user_id ?p) = true,
         Hlookup : profiles _ !! _ = Some ?p |- _ =>
           rewrite !Hlookup;
           destruct (revenuecat_user_id p) as [stored|] eqn:Hcolumn; [|discriminate];
           cbn in *; split; [reflexivity|]; right; split; [|reflexivity];
           intros ->; discriminate
       end.
Qed.

End CheckoutEffect.

Lemma held_customer_found (w : World) (id : string) :
  provider_has w id →
  ∃ c, List.find (has_customer_id id) (customers (stripe w)) = Some c.
Proof.
  intros (c & Hin & Hid). induction (customers (stripe w)) as [|c' cs IH].
  - by apply elem_of_nil in Hin.
  - simpl. destruct (has_customer_id id c') eqn:Hc'; [eauto|].
    apply elem_of_cons in Hin as [-> | Hin]; [|by apply IH].
    unfold has_customer_id in Hc'. rewrite Hid, String.eqb_refl in Hc'. discriminate.
Qed.

Section CheckoutRequests.
Context `{Platform}.

(** X14.  A price id that is neither the configured monthly nor the
    configured yearly one is refused with 400 before the table or the
    provider is asked anything: the world is unchanged. *)
Theorem unknown_price_is_rejected
    (env : gmap string string) (o : Oracle) (req : Request) (w : World)
    (requestData : CheckoutRequest) (priceId : string) :
  missingVars env = [] →
  method req = "POST" →
  json_checkout (text req) = Normal requestData →
  cr_priceId requestData = Some priceId → priceId ≠ "" →
  truthy (cr_userId requestData) = true → truthy (cr_email requestData) = true →
  Deno_env_get env "STRIPE_PRICE_ID_MONTHLY" ≠ Some priceId →
  Deno_env_get env "STRIPE_PRICE_ID_YEARLY" ≠ Some priceId →
  ∃ message,
    serve (create_checkout_session env o req) w = (json 400 (Failure message), w).
Proof.
  intros Henv Hpost Hparse Hprice Hnonempty Huser Hemail Hmonthly Hyearly.
  unfold serve, create_checkout_session. rewrite Hpost, Henv. simpl.
  unfold try_catch, bind, lift. rewrite Hparse, Hprice, Huser, Hemail.
  rewrite truthy_nonempty by done. simpl.
  assert (∀ configured, configured ≠ Some priceId → strict_eq priceId configured = false)
    as Hdiffers.
  { intros configured Hne. destruct (strict_eq priceId configured) eqn:Heq; [|done].
    by apply strict_eq_true in Heq. }
  rewrite !Hdiffers by done. simpl. eauto.
Qed.

(** X15.  The settings check names exactly the unset ones among the five
    it needs, and while any is unset every request except a preflight is
    answered 500 with that list, the world unchanged. *)
Theorem missing_settings_are_listed
    (env : gmap string string) (o : Oracle) (req : Request) (w : World) :
  (∀ key, key ∈ missingVars env ↔
          key ∈ ["STRIPE_SECRET_KEY"; "SUPABASE_URL"; "SUPABASE_SERVICE_ROLE_KEY";
                 "STRIPE_PRICE_ID_MONTHLY"; "STRIPE_PRICE_ID_YEARLY"] ∧
          truthy (Deno_env_get env key) = false) ∧
  (missingVars env ≠ [] → method req ≠ "OPTIONS" →
   serve (create_checkout_session env o req) w =
     (json 500 (Failure ("Missing required environment variables: "
                           ++ join_comma (missingVars env)
                           ++ ". Please configure these in your Supabase project settings.")),
      w)).
Proof.
  split.
  - intros key. unfold missingVars.
    rewrite !elem_of_app, !elem_of_cons, elem_of_nil.
    destruct (truthy (Deno_env_get env "STRIPE_SECRET_KEY")) eqn:H1,
             (truthy (Deno_env_get env "SUPABASE_URL")) eqn:H2,
             (truthy (Deno_env_get env "SUPABASE_SERVICE_ROLE_KEY")) eqn:H3,
             (truthy (Deno_env_get env "STRIPE_PRICE_ID_MONTHLY")) eqn:H4,
             (truthy (Deno_env_get env "STRIPE_PRICE_ID_YEARLY")) eqn:H5;
      rewrite ?elem_of_cons, ?elem_of_nil;
      (split; [intros Hin | intros [Hin Hunset]]);
      repeat match goal with
             | Hor : _ ∨ _ |- _ => destruct Hor
             | Hfalse : False |- _ => destruct Hfalse
             end; subst; try congruence; auto 10.
  - intros Hmissing Hmethod. unfold serve, create_checkout_session.
    apply String.eqb_neq in Hmethod. rewrite Hmethod.
    destruct (missingVars env); [done|]. reflexivity.
Qed.

(** X16.  Whenever the checkout endpoint reports success it has opened
    exactly one session, and that session is for a customer the provider
    holds at that moment, at the price the request asks for, which is
    one of the two configured prices, with the seven-day trial and the
    user id of the request as metadata; the response carries the id and
    the URL of that session. *)
Theorem checkout_session_is_for_a_held_customer
    (env : gmap string string) (o : Oracle) (req : Request) (w : World) :
  success (fst (serve (create_checkout_session env o req) w)) = Some true →
  ∃ requestData session customerId,
    json_checkout (text req) = Normal requestData ∧
    sessions (stripe (snd (serve (create_checkout_session env o req) w)))
      = (sessions (stripe w) ++ [session])%list ∧
    fst (serve (create_checkout_session env o req) w)
      = json 200 (CheckoutCreated (session_url session) (session_id session)) ∧
    session_customer session = Some customerId ∧
    provider_has (snd (serve (create_checkout_session env o req) w)) customerId ∧
    session_price session = the_string (cr_priceId requestData) ∧
    (strict_eq (session_price session) (Deno_env_get env "STRIPE_PRICE_ID_MONTHLY") = true ∨
     strict_eq (session_price session) (Deno_env_get env "STRIPE_PRICE_ID_YEARLY") = true) ∧
    trial_period_days session = 7 ∧
    session_metadata session = [("userId", the_string (cr_userId requestData))].
Proof.
  destruct (checkout_effect env o req w) as (response & w' & -> & _ & Heffect). simpl.
  intros Hsuccess.
  destruct Heffect as [[Hfailed _] |
    (requestData & customerId & session & Hparse & Hsessions & Hresponse & Hcustomer
       & Hasked & Hprice & Htrial & Hmetadata & Hheld & _)]; [done|].
  exists requestData, session, customerId. repeat (split; [done|]). done.
Qed.

(** X17.  No request makes the checkout endpoint create more than one
    provider customer or more than one session, and the objects the
    provider already held stay in place; a request that fails may leave a
    new customer behind but never a session. *)
Theorem checkout_adds_at_most_one
    (env : gmap string string) (o : Oracle) (req : Request) (w : World) :
  let run := serve (create_checkout_session env o req) w in
  (∃ added, customers (stripe (snd run)) = (customers (stripe w) ++ added)%list ∧
            (List.length added ≤ 1)%nat) ∧
  (∃ added, sessions (stripe (snd run)) = (sessions (stripe w) ++ added)%list ∧
            (List.length added ≤ 1)%nat) ∧
  (success (fst run) ≠ Some true → sessions (stripe (snd run)) = sessions (stripe w)).
Proof.
  cbv zeta.
  destruct (checkout_effect env o req w) as (response & w' & -> & Hcustomers & Heffect).
  simpl. split; [|split].
  - destruct Hcustomers as [-> | [c ->]]; [exists [] | exists [c]];
      rewrite ?app_nil_r; split; simpl; auto.
  - destruct Heffect as [[_ ->] | (rd & cid & session & _ & -> & _)];
      [exists [] | exists [session]]; rewrite ?app_nil_r; split; simpl; auto.
  - intros Hfailed.
    destruct Heffect as [[_ ->] | (rd & cid & session & _ & _ & -> & _)]; [done|].
    by destruct Hfailed.
Qed.

(** X18.  A checkout that succeeded and stored its customer id is not
    repeated at the provider: the next well-formed checkout of the same
    user, as long as the provider answers the retrieval, creates no
    customer and keeps the stored id. *)
Theorem second_checkout_reuses_customer
    (env : gmap string string) (o1 o2 : Oracle) (req1 req2 : Request) (w : World)
    (first : CheckoutRequest) (priceId userId email : string) (name : option string) :
  success (fst (serve (create_checkout_session env o1 req1) w)) = Some true →
  json_checkout (text req1) = Normal first →
  cr_userId first = Some userId →
  is_Some (profiles w !! userId) →
  update_fails o1 = false →
  new_customer_id o1 ≠ "" →
  checkout_request env req2 priceId userId email name →
  select_fails o2 = false →
  customers_retrieve_fails o2 = false →
  let w1 := snd (serve (create_checkout_session env o1 req1) w) in
  let w2 := snd (serve (create_checkout_session env o2 req2) w1) in
  customers (stripe w2) = customers (stripe w1) ∧
  customer_of w2 userId = customer_of w1 userId ∧
  is_Some (customer_of w1 userId).
Proof.
  intros Hsuccess Hparse Huser Hrow Hupdate Hid Hrequest Hselect Hretrieve. cbv zeta.
  destruct (checkout_effect env o1 req1 w) as (response & w1 & Hrun1 & _ & Heffect).
  rewrite Hrun1 in *. simpl in *.
  destruct Heffect as [[Hfailed _] |
    (rd & customerId & session & Hparse' & _ & _ & _ & _ & _ & _ & _ & Hheld & Hstored)];
    [done|].
  assert (rd = first) as -> by congruence. rewrite Huser in Hstored. simpl in Hstored.
  destruct (Hstored Hupdate Hrow) as [Hlinked Hnonempty].
  assert (customerId ≠ "") as Htruthy by (destruct Hnonempty as [-> | [? _]]; done).
  destruct (held_customer_found _ _ Hheld) as [c Hfound].
  pose proof (checkout_request_run _ o2 _ _ _ _ _ w1 Hrequest Hselect) as Hrun2.
  rewrite Hlinked in Hrun2.
  rewrite (resolve_reuse o2 userId email name (Some customerId) w1 c) in Hrun2; cycle 1.
  { by apply truthy_nonempty. }
  { unfold customers_retrieve. simpl. by rewrite Hretrieve, Hfound. }
  destruct (open_checkout_run env o2 (the_string (Some customerId)) priceId userId w1)
    as (response2 & w2 & Hopen & Hprofiles & Hcustomers & _).
  rewrite Hopen in Hrun2. rewrite Hrun2. simpl.
  split; [done|]. unfold customer_of in *. rewrite Hprofiles. split; [done|].
  rewrite Hlinked. eauto.
Qed.

End CheckoutRequests.

Lemma unknown_price_is_rejected_witness :
  ∃ message,
    serve (@create_checkout_session Sample.platform Scenario.repriced_env Sample.calm
             (Sample.post Sample.checkout_text)) Sample.fresh_world
    = (json 400 (Failure message), Sample.fresh_world).
Proof.
  apply (@unknown_price_is_rejected Sample.platform Scenario.repriced_env Sample.calm
           (Sample.post Sample.checkout_text) Sample.fresh_world
           {| cr_priceId := Some "price_monthly"; cr_userId := Some "user-1";
              cr_email := Some "ada@example.org"; cr_name := None |} "price_monthly");
    try (vm_compute; reflexivity); vm_compute; discriminate.
Defined.

Lemma checkout_session_is_for_a_held_customer_witness :
  let run := serve (@create_checkout_session Sample.platform Sample.env Sample.calm
                      (Sample.post Sample.checkout_text)) Sample.fresh_world in
  ∃ requestData session customerId,
    @json_checkout Sample.platform Sample.checkout_text = Normal requestData ∧
    sessions (stripe (snd run)) = [Sample.open_session; Sample.paid_session; session] ∧
    fst run = json 200 (CheckoutCreated (session_url session) (session_id session)) ∧
    session_customer session = Some customerId ∧
    provider_has (snd run) customerId ∧
    session_price session = the_string (cr_priceId requestData) ∧
    (strict_eq (session_price session)
       (Deno_env_get Sample.env "STRIPE_PRICE_ID_MONTHLY") = true ∨
     strict_eq (session_price session)
       (Deno_env_get Sample.env "STRIPE_PRICE_ID_YEARLY") = true) ∧
    trial_period_days session = 7 ∧
    session_metadata session = [("userId", the_string (cr_userId requestData))].
Proof.
  exact (@checkout_session_is_for_a_held_customer Sample.platform Sample.env Sample.calm
           (Sample.post Sample.checkout_text) Sample.fresh_world eq_refl).
Defined.

Lemma second_checkout_reuses_customer_witness :
  let w1 := snd (serve (@create_checkout_session Sample.platform Sample.env Sample.calm
                          (Sample.post Sample.checkout_text)) Sample.fresh_world) in
  let w2 := snd (serve (@create_checkout_session Sample.platform Sample.env Sample.calm
                          (Sample.post Sample.checkout_text)) w1) in
  customers (stripe w2) = customers (stripe w1) ∧
  customer_of w2 "user-1" = customer_of w1 "user-1" ∧
  is_Some (customer_of w1 "user-1").
Proof.
  assert (new_customer_id Sample.calm ≠ "") as Hid by done.
  exact (@second_checkout_reuses_customer Sample.platform Sample.env Sample.calm Sample.calm
           (Sample.post Sample.checkout_text) (Sample.post Sample.checkout_text)
           Sample.fresh_world
           {| cr_priceId := Some "price_monthly"; cr_userId := Some "user-1";
              cr_email := Some "ada@example.org"; cr_name := None |}
           "price_monthly" "user-1" "ada@example.org" None
           eq_refl eq_refl eq_refl (ex_intro _ Sample.fresh_row eq_refl) eq_refl Hid
           sample_checkout_request eq_refl eq_refl).
Defined.

(** ** The signup trigger on every request *)

Lemma truthy_is_nonempty (v : option string) :
  truthy v = true → ∃ s, v = Some s ∧ s ≠ "".
Proof.
  destruct v as [s|]; [|discriminate]. simpl. intros Hs. exists s. split; [done|].
  by apply String.eqb_neq, negb_true_iff.
Qed.

Section SignupEffect.
Context `{Platform}.

(** Every run of the trigger either creates nothing and changes nothing,
    reporting success only with the id the row already holds, or creates
    one customer for a user whose row holds no id; then a refused update
    is reported and an accepted one writes the new id. *)
Lemma signup_effect (env : gmap string string) (o : Oracle) (req : Request) (w : World) :
  ∃ response w',
    serve (create_stripe_customer env o req) w = (response, w') ∧
    ((w' = w ∧
      (success response = Some true →
       ∃ record customerId,
         json_signup (text req) = Normal (Some record) ∧
         response = json 200 (CustomerLinked "User already has a Stripe customer ID"
                                customerId) ∧
         customer_of w (the_string (rec_id record)) = Some customerId ∧
         customerId ≠ "")) ∨
     (∃ record c,
        json_signup (text req) = Normal (Some record) ∧
        truthy (customer_of w (the_string (rec_id record))) = false ∧
        customer_id c = new_customer_id o ∧
        customer_email c = the_string (rec_email record) ∧
        customer_metadata c = [("supabase_user_id", the_string (rec_id record))] ∧
        stripe w' = with_customers (customers (stripe w) ++ [c])%list (stripe w) ∧
        ((update_fails o = true ∧ profiles w' = profiles w ∧
          status response = 500 ∧ success response = Some false) ∨
         (update_fails o = false ∧
          profiles w' = alter (customer_patch (customer_id c))
                          (the_string (rec_id record)) (profiles w) ∧
          response = json 200 (CustomerLinked
                                 "Stripe customer created and linked to user profile"
                                 (customer_id c)))))).
Proof.
  unfold serve, create_stripe_customer, try_catch, bind, lift, ret, throw,
    select_revenuecat_user_id, customers_create, update_profile.
  repeat next_case.
  all: do 2 eexists; (split; [reflexivity|]); cbn.
  all: try (left; split; [by destruct w|]; intros Hsuccess; try discriminate).
  all: try (right; eexists;
            eexists {| customer_id := _; customer_email := _;
                       customer_name := _; customer_metadata := _ |};
            split; [reflexivity|]; cbn).
  all: try match goal with
           | Hrow : profiles _ !! _ = Some ?p, Hid : truthy (revenuecat_user_id ?p) = true
             |- ∃ record customerId, _ =>
               apply truthy_is_nonempty in Hid as (customerId & Hid & Hnonempty);
               eexists; exists customerId; unfold customer_of;
               rewrite Hrow, Hid; done
           end.
  all: unfold customer_of;
    repeat match goal with
           | Hrow : profiles _ !! _ = _ |- _ => rewrite Hrow; clear Hrow
           end.
  all: split; [done|]; repeat (split; [reflexivity|]).
  all: first [left; done | right; done].
Qed.

End SignupEffect.

Section SignupRequests.
Context `{Platform}.


(** X20.  When the trigger reports success, the customer id in the
    response is the one the provider holds and, if the user has a row,
    the one the row holds afterwards; at most one customer is created. *)
Theorem signup_reports_the_stored_id
    (env : gmap string string) (o : Oracle) (req : Request) (w : World) :
  success (fst (serve (create_stripe_customer env o req) w)) = Some true →
  ∃ record message customerId,
    json_signup (text req) = Normal (Some record) ∧
    fst (serve (create_stripe_customer env o req) w)
      = json 200 (CustomerLinked message customerId) ∧
    (is_Some (profiles w !! the_string (rec_id record)) →
     customer_of (snd (serve (create_stripe_customer env o req) w))
       (the_string (rec_id record)) = Some customerId) ∧
    (customers (stripe (snd (serve (create_stripe_customer env o req) w)))
       = customers (stripe w) ∨
     ∃ c, customer_id c = customerId ∧
          customers (stripe (snd (serve (create_stripe_customer env o req) w)))
            = (customers (stripe w) ++ [c])%list).
Proof.
  destruct (signup_effect env o req w) as (response & w' & -> & Heffect). simpl.
  intros Hsuccess.
  destruct Heffect as [[-> Hlinked] |
    (record & c & Hparse & _ & Hid & _ & _ & Hstripe & Hupdate)].
  - destruct (Hlinked Hsuccess) as (record & customerId & Hparse & -> & Hstored & _).
    exists record. do 2 eexists. split; [done|]. split; [reflexivity|]. eauto.
  - destruct Hupdate as [(_ & _ & _ & Hfailed) | (_ & Hprofiles & ->)]; [congruence|].
    exists record. do 2 eexists. split; [done|]. split; [reflexivity|]. split.
    + intros [row Hrow]. unfold customer_of. by rewrite Hprofiles, lookup_alter_eq, Hrow.
    + right. exists c. by rewrite Hstripe.
Qed.

(** X21.  A run of the trigger that does not report success writes
    nothing to the table; it leaves the provider as it was unless the
    table refused the update, in which case the customer it has just
    created stays at the provider, linked to no row. *)
Theorem failed_signup_writes_no_row
    (env : gmap string string) (o : Oracle) (req : Request) (w : World) :
  success (fst (serve (create_stripe_customer env o req) w)) ≠ Some true →
  profiles (snd (serve (create_stripe_customer env o req) w)) = profiles w ∧
  (stripe (snd (serve (create_stripe_customer env o req) w)) = stripe w ∨
   update_fails o = true ∧
   status (fst (serve (create_stripe_customer env o req) w)) = 500 ∧
   ∃ c, customer_id c = new_customer_id o ∧
        customers (stripe (snd (serve (create_stripe_customer env o req) w)))
          = (customers (stripe w) ++ [c])%list).
Proof.
  destruct (signup_effect env o req w) as (response & w' & -> & Heffect). simpl.
  intros Hfailed.
  destruct Heffect as [[-> _] | (record & c & _ & _ & Hid & _ & _ & Hstripe & Hupdate)];
    [by split; [|left]|].
  destruct Hupdate as [(Hrefused & Hprofiles & Hstatus & _) | (_ & _ & ->)];
    [|by destruct Hfailed].
  split; [done|]. right. split; [done|]. split; [done|]. exists c. by rewrite Hstripe.
Qed.



End SignupRequests.

(** *** The trigger on the sample data *)


Lemma signup_reports_the_stored_id_witness :
  let run := serve (@create_stripe_customer Sample.platform Sample.env Sample.calm
                      (Sample.post Sample.signup_text)) Sample.fresh_world in
  ∃ record message customerId,
    @json_signup Sample.platform Sample.signup_text = Normal (Some record) ∧
    fst run = json 200 (CustomerLinked message customerId) ∧
    (is_Some (profiles Sample.fresh_world !! the_string (rec_id record)) →
     customer_of (snd run) (the_string (rec_id record)) = Some customerId) ∧
    (customers (stripe (snd run)) = customers (stripe Sample.fresh_world) ∨
     ∃ c, customer_id c = customerId ∧
          customers (stripe (snd run))
            = (customers (stripe Sample.fresh_world) ++ [c])%list).
Proof.
  exact (@signup_reports_the_stored_id Sample.platform Sample.env Sample.calm
           (Sample.post Sample.signup_text) Sample.fresh_world eq_refl).
Defined.

Lemma failed_signup_writes_no_row_witness :
  let run := serve (@create_stripe_customer Sample.platform Sample.env Sample.write_refused
                      (Sample.post Sample.signup_text)) Sample.fresh_world in
  profiles (snd run) = profiles Sample.fresh_world ∧
  (stripe (snd run) = stripe Sample.fresh_world ∨
   update_fails Sample.write_refused = true ∧
   status (fst run) = 500 ∧
   ∃ c, customer_id c = "cus_new" ∧
        customers (stripe (snd run))
          = (customers (stripe Sample.fresh_world) ++ [c])%list).
Proof.
  assert (success (fst (serve (@create_stripe_customer Sample.platform Sample.env
                                 Sample.write_refused (Sample.post Sample.signup_text))
                          Sample.fresh_world)) ≠ Some true) as Hfailed
    by (vm_compute; discriminate).
  exact (@failed_signup_writes_no_row Sample.platform Sample.env Sample.write_refused
           (Sample.post Sample.signup_text) Sample.fresh_world Hfailed).
Defined.



(** ** The portal redirector *)

Section PortalProperties.
Context `{Platform} (json_portal : string → completion PortalRequest).

Lemma portal_request_run (env : gmap string string) (o : Oracle) (po : PortalOracle)
    (req : Request) (userId : string) (w : World) :
  portal_request json_portal env req userId →
  select_fails o = false →
  create_portal_session json_portal env o po req w =
    (Normal
       match profiles w !! userId with
       | None => portal_json 500 (PortalFailure "Failed to fetch user profile")
       | Some row =>
           if truthy (revenuecat_user_id row)
           then
             if portal_create_fails po
             then portal_json 500 (PortalFailure "Failed to create customer portal session")
             else
               match List.find (has_customer_id (the_string (revenuecat_user_id row)))
                       (customers (stripe w)) with
               | Some _ => portal_json 200 (PortalCreated (new_portal_url po))
               | None =>
                   portal_json 500 (PortalFailure "Failed to create customer portal session")
               end
           else portal_json 400 (PortalFailure "No Stripe customer ID found for this user")
       end, w).
Proof.
  intros (Hkey & Hurl & Hrole & Hpost & Hparse & Hid) Hselect.
  unfold create_portal_session. rewrite Hpost, Hkey, Hurl, Hrole. simpl.
  unfold try_catch, bind, lift. rewrite Hparse.
  cbv beta iota zeta delta [pr_userId].
  rewrite truthy_nonempty by done. simpl.
  unfold select_revenuecat_user_id. rewrite Hselect.
  destruct (profiles w !! userId) as [row|]; simpl; [|reflexivity].
  destruct (truthy (revenuecat_user_id row)); simpl; [|reflexivity].
  unfold portal_sessions_create. destruct (portal_create_fails po); [reflexivity|].
  by destruct (List.find _ _).
Qed.

(** X24.  The portal endpoint answers every request and never changes
    the world; it hands out a portal URL only with status 200 and only
    for the customer id that the row of the requesting user holds and
    the provider knows. *)
Theorem portal_opens_only_for_held_customer
    (env : gmap string string) (o : Oracle) (po : PortalOracle) (req : Request)
    (w : World) :
  ∃ response,
    create_portal_session json_portal env o po req w = (Normal response, w) ∧
    ∀ url, portal_body response = PortalCreated url →
      portal_status response = 200 ∧
      ∃ requestData customerId,
        json_portal (text req) = Normal requestData ∧
        customer_of w (the_string (pr_userId requestData)) = Some customerId ∧
        provider_has w customerId.
Proof.
  unfold create_portal_session, try_catch, bind, lift, ret, throw,
    select_revenuecat_user_id, portal_sessions_create.
  repeat next_case.
  all: eexists; (split; [reflexivity|]); intros url Hbody; try discriminate.
  split; [reflexivity|].
  match goal with
  | Hrow : profiles _ !! _ = Some ?p,
    Hid : negb (truthy (revenuecat_user_id ?p)) = false,
    Hfound : List.find _ _ = Some _ |- _ =>
      apply negb_false_iff, truthy_is_nonempty in Hid as (customerId & Hid & _);
      rewrite Hid in Hfound; apply find_customer_held in Hfound as [Hin Hheld];
      eexists; exists customerId; split; [reflexivity|];
      unfold customer_of; rewrite Hrow; split; [exact Hid | eexists; eauto]
  end.
Qed.


(** X26.  After a checkout that succeeded and stored its customer id,
    the portal opens for the same user as soon as the provider answers. *)
Theorem portal_opens_after_checkout
    (env : gmap string string) (o1 o2 : Oracle) (po : PortalOracle)
    (req1 req2 : Request) (w : World)
    (first : CheckoutRequest) (userId : string) :
  success (fst (serve (create_checkout_session env o1 req1) w)) = Some true →
  json_checkout (text req1) = Normal first →
  cr_userId first = Some userId →
  is_Some (profiles w !! userId) →
  update_fails o1 = false →
  new_customer_id o1 ≠ "" →
  portal_request json_portal env req2 userId →
  select_fails o2 = false →
  portal_create_fails po = false →
  let w1 := snd (serve (create_checkout_session env o1 req1) w) in
  create_portal_session json_portal env o2 po req2 w1
    = (Normal (portal_json 200 (PortalCreated (new_portal_url po))), w1).
Proof.
  intros Hsuccess Hparse Huser Hrow Hupdate Hid Hrequest Hselect Hcreate. cbv zeta.
  destruct (checkout_effect env o1 req1 w) as (response & w1 & Hrun1 & _ & Heffect).
  rewrite Hrun1 in *. simpl in *.
  destruct Heffect as [[Hfailed _] |
    (rd & customerId & session & Hparse' & _ & _ & _ & _ & _ & _ & _ & Hheld & Hstored)];
    [done|].
  assert (rd = first) as -> by congruence. rewrite Huser in Hstored. simpl in Hstored.
  destruct (Hstored Hupdate Hrow) as [Hlinked Hnonempty].
  assert (customerId ≠ "") as Htruthy by (destruct Hnonempty as [-> | [? _]]; done).
  destruct (held_customer_found _ _ Hheld) as [c Hfound].
  rewrite (portal_request_run _ _ po _ _ w1 Hrequest Hselect).
  unfold customer_of in Hlinked. destruct (profiles w1 !! userId) as [row|]; [|done].
  rewrite Hlinked, truthy_nonempty by done. simpl. by rewrite Hcreate, Hfound.
Qed.

End PortalProperties.

(** *** The portal on the sample data *)

Lemma sample_portal_request :
  portal_request Scenario.json_portal Sample.env (Sample.post Scenario.portal_text) "user-1".
Proof. repeat split; try done; vm_compute; reflexivity. Qed.


Lemma portal_opens_after_checkout_witness :
  let w1 := snd (serve (@create_checkout_session Sample.platform Sample.env Sample.calm
                          (Sample.post Sample.checkout_text)) Sample.fresh_world) in
  create_portal_session Scenario.json_portal Sample.env Sample.calm Scenario.portal_calm
    (Sample.post Scenario.portal_text) w1
  = (Normal (portal_json 200
               (PortalCreated (Some "https://billing.stripe.com/p/session/test_1"))), w1).
Proof.
  assert (new_customer_id Sample.calm ≠ "") as Hid by done.
  exact (@portal_opens_after_checkout Sample.platform Scenario.json_portal Sample.env
           Sample.calm Sample.calm Scenario.portal_calm
           (Sample.post Sample.checkout_text) (Sample.post Scenario.portal_text)
           Sample.fresh_world
           {| cr_priceId := Some "price_monthly"; cr_userId := Some "user-1";
              cr_email := Some "ada@example.org"; cr_name := None |} "user-1"
           eq_refl eq_refl eq_refl (ex_intro _ Sample.fresh_row eq_refl) eq_refl Hid
           sample_portal_request eq_refl eq_refl).
Defined.

(** ** The client hook *)

Section HookProperties.
Import UseStripe.
Context {Backend : Type}.
Context (invoke : string → list (string * option string) → Backend → Invoked * Backend).
Context (getUserFriendlyErrorMessage : Thrown → string).

Lemma settle_value {A} (failed : A) (outcome : Thrown + A) :
  settle getUserFriendlyErrorMessage failed outcome =
    match outcome with
    | inr value => (value, {| isLoading := false; error := None |})
    | inl err =>
        (failed,
         {| isLoading := false; error := Some (getUserFriendlyErrorMessage err) |})
    end.
Proof. reflexivity. Qed.

Lemma url_of_value (fallback : string) (invoked : Invoked) (url : option string) :
  url_of fallback invoked = inr url ↔
  ∃ d value, url = Some value ∧ value ≠ "" ∧
             functionError invoked = None ∧ data invoked = Some d ∧
             data_success d = Some true ∧ data_url d = Some value.
Proof.
  unfold url_of.
  destruct (functionError invoked) as [e|];
    [split; [done | by intros (? & ? & ? & ? & ? & _)]|].
  destruct (data invoked) as [d|];
    [|split; [done | by intros (? & ? & ? & ? & ? & ? & _)]].
  destruct (data_success d) as [[|]|] eqn:Hflag; simpl;
    try (split; [done | intros (? & ? & ? & ? & ? & [= <-] & ? & _); congruence]).
  destruct (truthy (data_url d)) eqn:Hurl; simpl.
  - apply truthy_is_nonempty in Hurl as (value & Hvalue & Hnonempty).
    split.
    + intros [= <-]. exists d, value. by rewrite Hflag.
    + intros (d' & value' & -> & _ & _ & [= <-] & _ & Hvalue'). by rewrite Hvalue'.
  - split; [done|]. intros (d' & value & _ & Hnonempty & _ & [= <-] & _ & Hvalue).
    rewrite Hvalue, truthy_nonempty in Hurl; done.
Qed.

(** X28.  Each of the three functions of the hook reports failure in
    both places at once: it returns [null] (or [false]) exactly when it
    leaves a message in [error], whatever the backend answers. *)
Theorem hook_failure_is_reported
    (user : option User) (priceId sessionId : string) (st : HookState)
    (backend : Backend) :
  (fst (fst (createCheckoutSession invoke getUserFriendlyErrorMessage
               user priceId st backend)) = None ↔
   is_Some (error (snd (fst (createCheckoutSession invoke getUserFriendlyErrorMessage
                               user priceId st backend))))) ∧
  (fst (fst (handleSubscriptionSuccess invoke getUserFriendlyErrorMessage
               user sessionId st backend)) = false ↔
   is_Some (error (snd (fst (handleSubscriptionSuccess invoke getUserFriendlyErrorMessage
                               user sessionId st backend))))) ∧
  (fst (fst (redirectToCustomerPortal invoke getUserFriendlyErrorMessage
               user st backend)) = None ↔
   is_Some (error (snd (fst (redirectToCustomerPortal invoke getUserFriendlyErrorMessage
                               user st backend))))).
Proof.
  assert (∀ fallback invoked,
            fst (settle getUserFriendlyErrorMessage None (url_of fallback invoked)) = None ↔
            is_Some (error (snd (settle getUserFriendlyErrorMessage None
                                   (url_of fallback invoked))))) as Hurl.
  { intros fallback invoked. rewrite settle_value.
    destruct (url_of fallback invoked) as [err|url] eqn:Houtcome; simpl.
    - split; eauto.
    - apply url_of_value in Houtcome as (d & value & -> & _).
      split; [done | by intros [? ?]]. }
  unfold createCheckoutSession, handleSubscriptionSuccess, redirectToCustomerPortal.
  destruct user as [u|]; simpl; [|by repeat split; eauto].
  split; [|split].
  - destruct (negb _); simpl; [by split; eauto|].
    destruct (invoke "create-checkout-session" _ backend) as [invoked backend']. apply Hurl.
  - destruct (invoke "verify-subscription" _ backend) as [invoked backend'].
    rewrite settle_value. unfold verified_of.
    destruct (functionError invoked); [by split; eauto|].
    destruct (data invoked) as [d|]; [|by split; eauto].
    destruct (negb _); simpl; [by split; eauto|]. split; [done | by intros [? ?]].
  - destruct (invoke "create-portal-session" _ backend) as [invoked backend']. apply Hurl.
Qed.

(** X29.  The hook hands out a URL, or confirms a subscription, only on
    a positive answer of the backend: a signed-in user, no invocation
    error, a truthy [success] and, for a URL, that very URL non-empty in
    the answer. *)
Theorem hook_success_needs_a_positive_answer
    (user : option User) (priceId sessionId : string) (st : HookState)
    (backend : Backend) :
  (∀ url,
     fst (fst (createCheckoutSession invoke getUserFriendlyErrorMessage
                 user priceId st backend)) = Some url ↔
     ∃ u d, user = Some u ∧ priceId ≠ "" ∧ url ≠ "" ∧
       let invoked :=
         fst (invoke "create-checkout-session"
                [("priceId", Some priceId); ("userId", Some (user_id u));
                 ("email", user_email u); ("name", user_name u)] backend) in
       functionError invoked = None ∧ data invoked = Some d ∧
       data_success d = Some true ∧ data_url d = Some url) ∧
  (fst (fst (handleSubscriptionSuccess invoke getUserFriendlyErrorMessage
               user sessionId st backend)) = true ↔
   ∃ u d, user = Some u ∧
     let invoked :=
       fst (invoke "verify-subscription"
              [("sessionId", Some sessionId); ("userId", Some (user_id u))] backend) in
     functionError invoked = None ∧ data invoked = Some d ∧
     data_success d = Some true).
Proof.
  unfold createCheckoutSession, handleSubscriptionSuccess. cbv zeta. split.
  - intros url. destruct user as [u|]; [|split; [done | by intros (? & ? & ? & _)]].
    destruct priceId as [|a rest] eqn:Hprice; simpl;
      [split; [done | by intros (? & ? & _ & ? & _)]|].
    destruct (invoke "create-checkout-session" _ backend) as [invoked backend'] eqn:Hrun.
    rewrite settle_value. simpl.
    destruct (url_of _ invoked) as [err|value] eqn:Houtcome; simpl.
    + split; [done|]. intros (u' & d & [= <-] & _ & Hnonempty & Hinvoked).
      rewrite Hrun in Hinvoked. simpl in Hinvoked.
      destruct Hinvoked as (Herror & Hdata & Hflag & Hurl).
      assert (url_of "Failed to create checkout session" invoked = inr (Some url)) as Hok
        by (apply url_of_value; eauto 10).
      congruence.
    + apply url_of_value in Houtcome
        as (d & value' & -> & Hnonempty & Herror & Hdata & Hflag & Hurl).
      split.
      * intros [= <-]. exists u, d. rewrite Hrun. simpl. eauto 10.
      * intros (u' & d' & [= <-] & _ & _ & Hinvoked). rewrite Hrun in Hinvoked.
        simpl in Hinvoked. destruct Hinvoked as (_ & Hdata' & _ & Hurl'). congruence.
  - destruct user as [u|]; [|split; [done | by intros (? & ? & ? & _)]].
    destruct (invoke "verify-subscription" _ backend) as [invoked backend'] eqn:Hrun.
    rewrite settle_value. unfold verified_of. simpl.
    destruct (functionError invoked) as [e|] eqn:Herror; simpl.
    { split; [done|]. intros (u' & d & [= <-] & Hinvoked). rewrite Hrun in Hinvoked.
      simpl in Hinvoked. destruct Hinvoked as (Herror' & _). congruence. }
    destruct (data invoked) as [d|] eqn:Hdata; simpl; cycle 1.
    { split; [done|]. intros (u' & d & [= <-] & Hinvoked). rewrite Hrun in Hinvoked.
      simpl in Hinvoked. destruct Hinvoked as (_ & Hdata' & _). congruence. }
    destruct (data_success d) as [[|]|] eqn:Hflag; simpl.
    + split; [|done]. intros _. exists u, d. rewrite Hrun. simpl. eauto.
    + split; [done|]. intros (u' & d' & [= <-] & Hinvoked). rewrite Hrun in Hinvoked.
      simpl in Hinvoked. destruct Hinvoked as (_ & Hdata' & Hflag'). congruence.
    + split; [done|]. intros (u' & d' & [= <-] & Hinvoked). rewrite Hrun in Hinvoked.
      simpl in Hinvoked. destruct Hinvoked as (_ & Hdata' & Hflag'). congruence.
Qed.

End HookProperties.

(** A verifier answer of [success: false] reaches the user as the
    message of its [error] member, after one invocation. *)
Example hook_shows_payment_not_completed :
  UseStripe.handleSubscriptionSuccess (Scenario.counting Scenario.not_paid)
    Scenario.message_of (Some Scenario.ada) "cs_open" Scenario.idle 0
  = (false,
     {| UseStripe.isLoading := false; UseStripe.error := Some "Payment not completed" |},
     1).
Proof. reflexivity. Qed.

(** A checkout answer with a URL is handed on and clears the earlier
    message. *)
Example hook_hands_on_the_checkout_url :
  UseStripe.createCheckoutSession (Scenario.counting Scenario.checkout_ready)
    Scenario.message_of (Some Scenario.ada) "price_monthly" Scenario.idle 0
  = (Some "https://checkout.stripe.com/c/pay/cs_new",
     {| UseStripe.isLoading := false; UseStripe.error := None |},
     1).
Proof. reflexivity. Qed.
